(** * Outbound validation of eth-tester: a shallow embedding

    The development follows [eth_tester/validation/outbound.py].  Python
    values are an inductive type of immutable trees; a dictionary is a
    finite map; a call either returns a value or raises an exception; the
    one function of the file that assigns into its argument (the fork-field
    resolver) runs in a state-and-exception monad whose state is the object
    the entry point was called with. *)

From stdpp Require Import gmap strings list fin_maps.
From Stdlib Require Import ZArith Lia.
From Stdlib.Strings Require Import Byte.

Set Warnings "-register-all,-clear-no-such-hyp".
#[local] Open Scope string_scope.
#[local] Open Scope Z_scope.

(** ** Python values *)

(** Dictionary keys: the records of the file are keyed by strings; integer
    keys are kept because [entry[0]] is also defined on a dictionary. *)
Inductive key :=
| KStr (s : string)
| KInt (z : Z).

#[global] Instance key_eq_dec : EqDecision key.
Proof. solve_decision. Defined.

#[global] Instance key_countable : Countable key.
Proof.
  refine (inj_countable'
            (λ k, match k with KStr s => inl s | KInt z => inr z end)
            (λ x, match x with inl s => KStr s | inr z => KInt z end) _).
  intros []; reflexivity.
Defined.

Coercion KStr : string >-> key.

Inductive pyvalue :=
| VNone
| VBool (b : bool)
| VInt (z : Z)
| VStr (s : string)
| VBytes (bs : list byte)
| VList (xs : list pyvalue)
| VTuple (xs : list pyvalue)
| VDict (d : gmap key pyvalue).

(** The exceptions that the operations used by the file can raise. *)
Inductive exn :=
| ValidationError (msg : string)
| TypeError
| KeyError
| IndexError.

Inductive outcome (A : Type) :=
| Ok (a : A)
| Raise (e : exn).
Arguments Ok {A} a.
Arguments Raise {A} e.

#[global] Instance outcome_ret : MRet outcome := λ A a, Ok a.
#[global] Instance outcome_bind : MBind outcome :=
  λ A B f m, match m with Ok a => f a | Raise e => Raise e end.
#[global] Instance outcome_fmap : FMap outcome :=
  λ A B f m, match m with Ok a => Ok (f a) | Raise e => Raise e end.

Definition is_ok {A} (o : outcome A) : bool :=
  match o with Ok _ => true | Raise _ => false end.

Definition is_validation_error {A} (o : outcome A) : bool :=
  match o with Raise (ValidationError _) => true | _ => false end.

(** A validator is a Python function of one argument.  The checkers return
    [None]; [identity] returns its argument. *)
Definition validator := pyvalue → outcome pyvalue.

Module Py.

(** [len(v)] *)
Definition len (v : pyvalue) : outcome Z :=
  match v with
  | VStr s => Ok (Z.of_nat (String.length s))
  | VBytes bs => Ok (Z.of_nat (length bs))
  | VList xs | VTuple xs => Ok (Z.of_nat (length xs))
  | VDict d => Ok (Z.of_nat (size d))
  | VNone | VBool _ | VInt _ => Raise TypeError
  end.

(** Position of index [i] in a sequence of [n] items; a negative index
    counts from the end. *)
Definition seq_index (n : nat) (i : Z) : option nat :=
  if bool_decide (0 ≤ i < Z.of_nat n) then Some (Z.to_nat i)
  else if bool_decide (- Z.of_nat n ≤ i < 0) then Some (Z.to_nat (Z.of_nat n + i))
  else None.

Definition seq_item {A} (xs : list A) (i : Z) : outcome A :=
  match seq_index (length xs) i ≫= λ n, xs !! n with
  | Some x => Ok x
  | None => Raise IndexError
  end.

(** [v[k]] *)
Definition getitem (v : pyvalue) (k : key) : outcome pyvalue :=
  match v, k with
  | VDict d, _ =>
      match d !! k with Some x => Ok x | None => Raise KeyError end
  | (VList xs | VTuple xs), KInt i => seq_item xs i
  | VStr s, KInt i =>
      match seq_index (String.length s) i ≫= λ n, String.get n s with
      | Some c => Ok (VStr (String c EmptyString))
      | None => Raise IndexError
      end
  | VBytes bs, KInt i => (λ b, VInt (Z.of_N (Byte.to_N b))) <$> seq_item bs i
  | _, _ => Raise TypeError
  end.

(** [k in v] for a string [k] *)
Definition contains (k : string) (v : pyvalue) : outcome bool :=
  match v with
  | VDict d => Ok (bool_decide (is_Some (d !! KStr k)))
  | VList xs | VTuple xs =>
      Ok (existsb (λ x, match x with VStr s => String.eqb s k | _ => false end) xs)
  | VStr s => Ok (bool_decide (is_Some (String.index 0 k s)))
  | VNone | VBool _ | VInt _ | VBytes _ => Raise TypeError
  end.

(** [all(f(x) for x in xs)] where [f] may raise: stops at the first
    [False] and at the first exception. *)
Fixpoint all {A} (f : A → outcome bool) (xs : list A) : outcome bool :=
  match xs with
  | [] => Ok true
  | x :: xs' => b ← f x; if b : bool then all f xs' else Ok false
  end.

(** [for x in xs: body(x)] for a body that returns nothing. *)
Fixpoint for_each {A} (xs : list A) (body : A → outcome unit) : outcome unit :=
  match xs with
  | [] => Ok ()
  | x :: xs' => _ ← body x; for_each xs' body
  end.

(** The integer a value compares equal to, if any ([True == 1]). *)
Definition as_int (v : pyvalue) : option Z :=
  match v with
  | VInt z => Some z
  | VBool b => Some (if b then 1 else 0)
  | _ => None
  end.

(** [v in zs] for a list or tuple literal of integers *)
Definition in_ints (v : pyvalue) (zs : list Z) : bool :=
  match as_int v with
  | Some z => bool_decide (z ∈ zs)
  | None => false
  end.

(** [v in range(lo, hi)] *)
Definition in_range (v : pyvalue) (lo hi : Z) : bool :=
  match as_int v with
  | Some z => bool_decide (lo ≤ z < hi)
  | None => false
  end.

(** [v > n]; an order comparison of a non-number with an integer raises. *)
Definition gt (v : pyvalue) (n : Z) : outcome bool :=
  match as_int v with
  | Some z => Ok (bool_decide (n < z))
  | None => Raise TypeError
  end.

End Py.

(** ** eth_utils predicates *)
Module EthUtils.

Definition is_bytes (v : pyvalue) : bool :=
  match v with VBytes _ => true | _ => false end.

(** [bool] is excluded although it is a subclass of [int]. *)
Definition is_integer (v : pyvalue) : bool :=
  match v with VInt _ => true | _ => false end.

(** A sequence that is not a string. *)
Definition is_list_like (v : pyvalue) : bool :=
  match v with VList _ | VTuple _ => true | _ => false end.

Definition is_dict (v : pyvalue) : bool :=
  match v with VDict _ => true | _ => false end.

Definition is_canonical_address (v : pyvalue) : bool :=
  match v with
  | VBytes bs => bool_decide (length bs = 20%nat)
  | _ => false
  end.

End EthUtils.

(** ** toolz helpers *)
Module Toolz.

(** [identity(x)] *)
Definition identity : validator := λ x, Ok x.

(** A dictionary literal whose values are functions: name/validator
    pairs in insertion order. *)
Definition table := list (string * validator).

Definition keys (t : table) : list string := t.*1.

Fixpoint lookup (k : string) (t : table) : option validator :=
  match t with
  | [] => None
  | (k', f) :: t' => if String.eqb k' k then Some f else lookup k t'
  end.

(** [d[k] = f]: an existing name keeps its place, a new one goes last. *)
Fixpoint assign (k : string) (f : validator) (t : table) : table :=
  match t with
  | [] => [(k, f)]
  | (k', f') :: t' =>
      if String.eqb k' k then (k, f) :: t' else (k', f') :: assign k f t'
  end.

(** [merge(d1, d2)]: a copy of [d1] updated with every item of [d2]. *)
Definition merge (d1 d2 : table) : table :=
  foldl (λ acc kf, assign kf.1 kf.2 acc) d1 d2.

End Toolz.

(** ** eth_tester.constants *)

(** Modelled from the spec: the constants module is not among the sources;
    the spec gives the bounds of the 64-, 256- and 2048-bit ranges as
    [2^64-1], [2^256-1] and [2^2048-1]. *)
Definition UINT64_MAX : Z := 2 ^ 64 - 1.
Definition UINT256_MAX : Z := 2 ^ 256 - 1.
Definition UINT2048_MAX : Z := 2 ^ 2048 - 1.

(** ** eth_tester.validation.common *)
Module Common.
Import Toolz.

(** Modelled from the spec: [validate_bytes] of the missing common
    module, "fails unless v is a byte sequence". *)
Definition validate_bytes : validator := λ v,
  if EthUtils.is_bytes v then Ok VNone
  else Raise (ValidationError "Value must be a byte string").

(** Modelled from the spec: [validate_positive_integer] of the missing
    common module, "fails unless v is an integer >= 0".  An integer is
    what [is_integer] accepts. *)
Definition validate_positive_integer : validator := λ v,
  match v with
  | VInt z =>
      if bool_decide (0 ≤ z) then Ok VNone
      else Raise (ValidationError "Value must be positive integers")
  | _ => Raise (ValidationError "Value must be positive integers")
  end.

(** Modelled from the spec: [validate_uint64] of the missing common
    module, "fails unless integer within [0, 2^64-1]". *)
Definition validate_uint64 : validator := λ v,
  _ ← validate_positive_integer v;
  b ← Py.gt v UINT64_MAX;
  if b : bool then Raise (ValidationError "Value exceeds maximum 64 bit integer size")
  else Ok VNone.

(** Modelled from the spec: [validate_uint256] of the missing common
    module, "fails unless integer within [0, 2^256-1]". *)
Definition validate_uint256 : validator := λ v,
  _ ← validate_positive_integer v;
  b ← Py.gt v UINT256_MAX;
  if b : bool then Raise (ValidationError "Value exceeds maximum 256 bit integer size")
  else Ok VNone.

(** Modelled from the spec: [validate_transaction_type] of the missing
    common module, a "small non-negative integer enum (0=legacy,
    1=access-list, 2=dynamic-fee, 3=blob, 4=set-code)". *)
Definition validate_transaction_type : validator := λ v,
  _ ← validate_positive_integer v;
  if Py.in_ints v [0; 1; 2; 3; 4] then Ok VNone
  else Raise (ValidationError "Transaction type must be one of 0, 1, 2, 3, 4").

(** Modelled from the spec: [validate_array] of the missing common
    module: "fails unless value is a sequence; applies elem_validator to
    every element; first element failure propagates". *)
Definition validate_array (value : pyvalue) (validator : validator) : outcome pyvalue :=
  match value with
  | VList xs | VTuple xs =>
      _ ← Py.for_each xs (λ x, _ ← validator x; Ok ());
      Ok VNone
  | _ => Raise (ValidationError "Value must be a sequence type")
  end.

Definition key_set (t : table) : gset key := list_to_set (KStr <$> keys t).

(** Modelled from the spec: [validate_dict] of the missing common module:
    "fails unless value is a mapping whose key set is exactly
    domain(key_validators) (extra keys are as much an error as missing
    keys); applies each validator to its corresponding value"; a
    validator that fails raises immediately; on success the return value
    is [None]. *)
Definition validate_dict (value : pyvalue) (key_validators : table) : outcome pyvalue :=
  match value with
  | VDict d =>
      if bool_decide (dom d = key_set key_validators) then
        _ ← Py.for_each key_validators
              (λ kf, item ← Py.getitem value (KStr kf.1); _ ← kf.2 item; Ok ());
        Ok VNone
      else Raise (ValidationError "Keys of the value do not match the expected keys")
  | _ => Raise (ValidationError "Value must be a dictionary")
  end.

(** Modelled from the spec: [validate_any] of the missing common module:
    "tries each validator against value in the given order; succeeds on
    first success; if all fail, raises an aggregate ValidationError".  A
    branch fails by raising [ValidationError]; nothing else is caught. *)
Fixpoint validate_any (value : pyvalue) (validators : list validator) : outcome pyvalue :=
  match validators with
  | [] => Raise (ValidationError "Value did not pass any of the provided validators")
  | f :: fs =>
      match f value with
      | Ok _ => Ok VNone
      | Raise (ValidationError _) => validate_any value fs
      | Raise e => Raise e
      end
  end.

(** Modelled from the spec: [if_not_null] of the missing common module:
    "given the designated null-sentinel, succeeds trivially; otherwise
    delegates". *)
Definition if_not_null (validator_fn : validator) : validator := λ v,
  match v with
  | VNone => Ok VNone
  | _ => validator_fn v
  end.

(** Modelled from the spec: the contract-creation sentinel of the missing
    common module, "the zero/empty recipient marker": the empty byte
    string. *)
Definition is_create_address (v : pyvalue) : bool :=
  match v with VBytes [] => true | _ => false end.

(** Modelled from the spec: [if_not_create_address] of the missing common
    module: "given the designated contract-creation sentinel, succeeds
    trivially; otherwise delegates". *)
Definition if_not_create_address (validator_fn : validator) : validator := λ v,
  if is_create_address v then Ok VNone else validator_fn v.

End Common.

(** ** Calls that assign into their argument *)

(** What a call hands back: the very object it was called with, or a value
    of its own. *)
Inductive obj :=
| Arg
| Imm (v : pyvalue).

(** A computation over the object an entry point was called with: it reads
    and writes the current contents of that object; what it has written
    stays written when it raises. *)
Definition M (A : Type) : Type := pyvalue → outcome A * pyvalue.

#[global] Instance M_ret : MRet M := λ A a s, (Ok a, s).
#[global] Instance M_bind : MBind M :=
  λ A B f m s,
    match m s with
    | (Ok a, s') => f a s'
    | (Raise e, s') => (Raise e, s')
    end.

Module Mem.

Definition lift {A} (o : outcome A) : M A := λ s, (o, s).

(** the argument object itself *)
Definition deref (r : obj) : M pyvalue :=
  λ s, (Ok (match r with Arg => s | Imm v => v end), s).

(** [block[k]] *)
Definition getitem (k : string) : M pyvalue := λ s, (Py.getitem s (KStr k), s).

(** [block[k] = v]; only a dictionary takes an assignment under a string. *)
Definition setitem (k : string) (v : pyvalue) : M unit :=
  λ s, match s with
       | VDict d => (Ok (), VDict (<[KStr k := v]> d))
       | _ => (Raise TypeError, s)
       end.

(** a predicate evaluated on the argument object *)
Definition test (p : pyvalue → bool) : M bool := λ s, (Ok (p s), s).

(** A validator called as an entry point. *)
Definition call (f : validator) : M obj :=
  v ← deref Arg; r ← lift (f v); mret (Imm r).

End Mem.

(** ** eth_tester.backends.pyevm.utils *)

(** Modelled from the spec: the fork classification of the backend, which is
    not among the sources: "four boolean-valued predicates, each taking the
    same block record and returning whether that fork's rules apply to
    it". *)
Class ForkRules := {
  is_london_block : pyvalue → bool;
  is_shanghai_block : pyvalue → bool;
  is_cancun_block : pyvalue → bool;
  is_prague_block : pyvalue → bool;
}.

(** ** eth_tester.validation.outbound *)
Module Outbound.
Import Toolz Common.
Export EthUtils.

(** A value that can be looked up in a set: lists and dictionaries are
    unhashable, a tuple is hashable when its items are. *)
Fixpoint hashable (v : pyvalue) : bool :=
  match v with
  | VList _ | VDict _ => false
  | VTuple xs => forallb hashable xs
  | _ => true
  end.

(** [v in {s1, s2, ...}] for a set literal of strings *)
Definition in_str_set (v : pyvalue) (strs : list string) : outcome bool :=
  if hashable v then
    Ok (match v with
        | VStr s => bool_decide (s ∈ strs)
        | _ => false
        end)
  else Raise TypeError.

Definition validate_32_byte_string : validator := λ value,
  _ ← validate_bytes value;
  n ← Py.len value;
  if bool_decide (n ≠ 32) then Raise (ValidationError "Must be of length 32.")
  else Ok VNone.

Definition validate_nonce : validator := λ value,
  _ ← validate_bytes value;
  n ← Py.len value;
  if bool_decide (n ≠ 8) then Raise (ValidationError "Must be of length 8.")
  else Ok VNone.

Definition validate_logs_bloom : validator := λ value,
  _ ← validate_positive_integer value;
  b ← Py.gt value UINT2048_MAX;
  if b : bool then Raise (ValidationError "Value exceeds 2048 bit integer size")
  else Ok VNone.

Definition validate_canonical_address : validator := λ value,
  _ ← validate_bytes value;
  if negb (is_canonical_address value)
  then Raise (ValidationError "Value must be a 20 byte string")
  else Ok VNone.

Definition validate_log_entry_type : validator := λ value,
  b ← in_str_set value ["pending"; "mined"];
  if negb b
  then Raise (ValidationError "Log entry type must be one of 'pending' or 'mined'")
  else Ok VNone.

Definition LOG_ENTRY_VALIDATORS : table :=
  [ ("type", validate_log_entry_type);
    ("log_index", validate_positive_integer);
    ("transaction_index", if_not_null validate_positive_integer);
    ("transaction_hash", validate_32_byte_string);
    ("block_hash", if_not_null validate_32_byte_string);
    ("block_number", if_not_null validate_positive_integer);
    ("address", validate_canonical_address);
    ("data", validate_bytes);
    ("topics", λ v, validate_array v validate_32_byte_string) ].

Definition validate_log_entry : validator :=
  λ v, validate_dict v LOG_ENTRY_VALIDATORS.

Definition validate_signature_v : validator := λ value,
  _ ← validate_positive_integer value;
  if negb (Py.in_ints value [0; 1; 27; 28])
     && negb (Py.in_range value 35 (UINT256_MAX + 1))
  then Raise (ValidationError
                "The `v` portion of the signature must be 0, 1, 27, 28 or >= 35")
  else Ok VNone.

Definition validate_y_parity : validator := λ value,
  _ ← validate_positive_integer value;
  if negb (Py.in_ints value [0; 1])
  then Raise (ValidationError
                "The `y_parity` value of the signature must be either 0 or 1")
  else Ok VNone.

(** The items a [for] loop visits in a list-like value. *)
Definition items (v : pyvalue) : list pyvalue :=
  match v with VList xs | VTuple xs => xs | _ => [] end.

(** The body of the loop of [_validate_outbound_access_list]. *)
Definition access_list_entry (entry : pyvalue) : outcome unit :=
  malformed ← (if negb (is_list_like entry)
               then n ← Py.len entry; Ok (bool_decide (n ≠ 2))
               else Ok false);
  if malformed : bool
  then Raise (ValidationError "access_list entry not properly formatted")
  else
    address ← Py.getitem entry (KInt 0);
    storage_keys ← Py.getitem entry (KInt 1);
    address_ok ← (if is_bytes address
                  then n ← Py.len address; Ok (bool_decide (n = 20))
                  else Ok false);
    if negb address_ok
    then Raise (ValidationError "access_list address not properly formatted")
    else if negb (is_list_like storage_keys)
    then Raise (ValidationError "access_list storage keys are not list-like")
    else
      n ← Py.len storage_keys;
      if bool_decide (n > 0) && negb (forallb is_integer (items storage_keys))
      then Raise (ValidationError
                    "one or more access list storage keys not formatted properly")
      else Ok ().

Definition _validate_outbound_access_list : validator := λ access_list,
  if negb (is_list_like access_list)
  then Raise (ValidationError "access_list is not list-like.")
  else
    _ ← Py.for_each (items access_list) access_list_entry;
    Ok VNone.

(** The set literal of the guard; the outcome of [all] over it does not
    depend on the order of iteration. *)
Definition AUTHORIZATION_KEYS : list string :=
  ["chain_id"; "address"; "nonce"; "y_parity"; "r"; "s"].

(** The body of the loop of [_validate_outbound_authorization_list]. *)
Definition authorization_entry (auth : pyvalue) : outcome unit :=
  malformed ← (if negb (is_dict auth)
               then b ← Py.all (λ k, Py.contains k auth) AUTHORIZATION_KEYS;
                    Ok (negb b)
               else Ok false);
  if malformed : bool
  then Raise (ValidationError "authorization_list entry not properly formatted")
  else
    x ← Py.getitem auth (KStr "chain_id"); _ ← validate_uint256 x;
    x ← Py.getitem auth (KStr "address"); _ ← validate_canonical_address x;
    x ← Py.getitem auth (KStr "nonce"); _ ← validate_uint64 x;
    x ← Py.getitem auth (KStr "y_parity"); _ ← validate_y_parity x;
    x ← Py.getitem auth (KStr "r"); _ ← validate_uint256 x;
    x ← Py.getitem auth (KStr "s"); _ ← validate_uint256 x;
    Ok ().

Definition _validate_outbound_authorization_list : validator := λ authorization_list,
  if negb (is_list_like authorization_list)
  then Raise (ValidationError "authorization_list is not list-like.")
  else
    _ ← Py.for_each (items authorization_list) authorization_entry;
    Ok VNone.

Definition LEGACY_TRANSACTION_VALIDATORS : table :=
  [ ("type", validate_transaction_type);
    ("hash", validate_32_byte_string);
    ("nonce", validate_uint64);
    ("block_hash", if_not_null validate_32_byte_string);
    ("block_number", if_not_null validate_positive_integer);
    ("transaction_index", if_not_null validate_positive_integer);
    ("from", validate_canonical_address);
    ("to", if_not_create_address validate_canonical_address);
    ("value", validate_uint256);
    ("gas", validate_uint256);
    ("gas_price", validate_uint256);
    ("data", validate_bytes);
    ("v", validate_signature_v);
    ("r", validate_uint256);
    ("s", validate_uint256) ].

Definition validate_legacy_transaction : validator :=
  λ v, validate_dict v LEGACY_TRANSACTION_VALIDATORS.

Definition ACCESS_LIST_TRANSACTION_VALIDATORS : table :=
  merge LEGACY_TRANSACTION_VALIDATORS
    [ ("v", validate_y_parity);
      ("y_parity", validate_y_parity);
      ("chain_id", validate_uint256);
      ("access_list", _validate_outbound_access_list) ].

Definition validate_access_list_transaction : validator :=
  λ v, validate_dict v ACCESS_LIST_TRANSACTION_VALIDATORS.

Definition DYNAMIC_FEE_TRANSACTION_VALIDATORS : table :=
  merge ACCESS_LIST_TRANSACTION_VALIDATORS
    [ ("max_fee_per_gas", validate_uint256);
      ("max_priority_fee_per_gas", validate_uint256) ].

Definition validate_dynamic_fee_transaction : validator :=
  λ v, validate_dict v DYNAMIC_FEE_TRANSACTION_VALIDATORS.

Definition BLOB_TRANSACTION_VALIDATORS : table :=
  merge DYNAMIC_FEE_TRANSACTION_VALIDATORS
    [ ("max_fee_per_blob_gas", validate_uint256);
      ("blob_versioned_hashes", λ v, validate_array v validate_32_byte_string) ].

Definition validate_blob_transactions : validator :=
  λ v, validate_dict v BLOB_TRANSACTION_VALIDATORS.

Definition SET_CODE_TRANSACTION_VALIDATORS : table :=
  merge DYNAMIC_FEE_TRANSACTION_VALIDATORS
    [ ("authorization_list", _validate_outbound_authorization_list) ].

Definition validate_set_code_transaction : validator :=
  λ v, validate_dict v SET_CODE_TRANSACTION_VALIDATORS.

Definition validate_transaction : validator := λ v,
  validate_any v
    [ (λ v, validate_dict v LEGACY_TRANSACTION_VALIDATORS);
      (λ v, validate_dict v ACCESS_LIST_TRANSACTION_VALIDATORS);
      (λ v, validate_dict v DYNAMIC_FEE_TRANSACTION_VALIDATORS);
      (λ v, validate_dict v BLOB_TRANSACTION_VALIDATORS);
      (λ v, validate_dict v SET_CODE_TRANSACTION_VALIDATORS) ].

Definition WITHDRAWAL_VALIDATORS : table :=
  [ ("index", validate_uint64);
    ("validator_index", validate_uint64);
    ("address", validate_canonical_address);
    ("amount", validate_uint64) ].

Definition validate_withdrawal : validator :=
  λ v, validate_dict v WITHDRAWAL_VALIDATORS.

Definition validate_status : validator := λ value,
  _ ← validate_positive_integer value;
  b ← Py.gt value 1;
  if b : bool then Raise (ValidationError "Invalid status value, only 0 or 1 allowed.")
  else Ok VNone.

Definition RECEIPT_VALIDATORS : table :=
  [ ("transaction_hash", validate_32_byte_string);
    ("transaction_index", if_not_null validate_positive_integer);
    ("block_number", if_not_null validate_positive_integer);
    ("block_hash", if_not_null validate_32_byte_string);
    ("cumulative_gas_used", validate_positive_integer);
    ("effective_gas_price", if_not_null validate_positive_integer);
    ("from", validate_canonical_address);
    ("gas_used", validate_positive_integer);
    ("contract_address", if_not_null validate_canonical_address);
    ("logs", λ v, validate_array v validate_log_entry);
    ("state_root", validate_bytes);
    ("status", validate_status);
    ("to", if_not_create_address validate_canonical_address);
    ("type", validate_transaction_type) ].

Definition CANCUN_RECEIPT_VALIDATORS : table :=
  merge RECEIPT_VALIDATORS
    [ ("blob_gas_used", validate_positive_integer);
      ("blob_gas_price", validate_positive_integer) ].

Definition validate_receipt : validator := λ v,
  validate_any v
    [ (λ v, validate_dict v RECEIPT_VALIDATORS);
      (λ v, validate_dict v CANCUN_RECEIPT_VALIDATORS) ].

Definition BLOCK_VALIDATORS : table :=
  [ ("number", validate_positive_integer);
    ("hash", validate_32_byte_string);
    ("parent_hash", validate_32_byte_string);
    ("nonce", validate_nonce);
    ("sha3_uncles", validate_32_byte_string);
    ("logs_bloom", validate_logs_bloom);
    ("transactions_root", validate_32_byte_string);
    ("receipts_root", validate_32_byte_string);
    ("state_root", validate_32_byte_string);
    ("coinbase", validate_canonical_address);
    ("difficulty", validate_positive_integer);
    ("mix_hash", validate_32_byte_string);
    ("total_difficulty", validate_positive_integer);
    ("size", validate_positive_integer);
    ("extra_data", validate_32_byte_string);
    ("gas_limit", validate_positive_integer);
    ("gas_used", validate_positive_integer);
    ("timestamp", validate_positive_integer);
    ("transactions", λ v,
       validate_any v
         [ (λ v, validate_array v validate_32_byte_string);
           (λ v, validate_array v validate_legacy_transaction);
           (λ v, validate_array v validate_access_list_transaction);
           (λ v, validate_array v validate_dynamic_fee_transaction);
           (λ v, validate_array v validate_blob_transactions) ]);
    ("uncles", λ v, validate_array v validate_32_byte_string);
    (* fork-specific fields, validated separately in
       [_validate_fork_specific_fields] *)
    (* London fork: *)
    ("base_fee_per_gas", identity);
    (* Shanghai fork: *)
    ("withdrawals", identity);
    ("withdrawals_root", identity);
    (* Cancun fork: *)
    ("parent_beacon_block_root", identity);
    ("blob_gas_used", identity);
    ("excess_blob_gas", identity);
    (* Prague fork: *)
    ("requests_hash", identity) ].

Section ForkFields.
Context `{ForkRules}.

Definition london_stage : M unit :=
  london ← Mem.test is_london_block;
  if london : bool then
    x ← Mem.getitem "base_fee_per_gas";
    _ ← Mem.lift (validate_positive_integer x);
    mret ()
  else
    Mem.setitem "base_fee_per_gas" VNone.

Definition shanghai_stage : M unit :=
  shanghai ← Mem.test is_shanghai_block;
  if shanghai : bool then
    x ← Mem.getitem "withdrawals";
    _ ← Mem.lift (validate_array x validate_withdrawal);
    x ← Mem.getitem "withdrawals_root";
    _ ← Mem.lift (validate_32_byte_string x);
    mret ()
  else
    _ ← Mem.setitem "withdrawals" VNone;
    Mem.setitem "withdrawals_root" VNone.

Definition cancun_stage : M unit :=
  cancun ← Mem.test is_cancun_block;
  if cancun : bool then
    x ← Mem.getitem "parent_beacon_block_root";
    _ ← Mem.lift (validate_32_byte_string x);
    x ← Mem.getitem "blob_gas_used";
    _ ← Mem.lift (validate_positive_integer x);
    x ← Mem.getitem "excess_blob_gas";
    _ ← Mem.lift (validate_positive_integer x);
    mret ()
  else
    _ ← Mem.setitem "parent_beacon_block_root" VNone;
    _ ← Mem.setitem "blob_gas_used" VNone;
    Mem.setitem "excess_blob_gas" VNone.

Definition prague_stage : M unit :=
  prague ← Mem.test is_prague_block;
  if prague : bool then
    x ← Mem.getitem "requests_hash";
    _ ← Mem.lift (validate_32_byte_string x);
    mret ()
  else
    Mem.setitem "requests_hash" VNone.

(** The four [if] statements of the function, in order, then
    [return block]. *)
Definition _validate_fork_specific_fields : M obj :=
  _ ← london_stage;
  _ ← shanghai_stage;
  _ ← cancun_stage;
  _ ← prague_stage;
  mret Arg.

(** [compose(f, g)(x) = f(g(x))]: what the resolver returns is handed to
    the dictionary validator, whose result is the result. *)
Definition validate_block : M obj :=
  r ← _validate_fork_specific_fields;
  block ← Mem.deref r;
  res ← Mem.lift (validate_dict block BLOCK_VALIDATORS);
  mret (Imm res).

End ForkFields.

Definition validate_accounts : validator :=
  λ v, validate_array v validate_canonical_address.

End Outbound.

(** ** eth_tester.utils.accounts *)
Module Accounts.
Section Keys.

(** [keccak] of eth_utils, a function of byte strings, and
    [private_key_to_public_key] of the secp256k1 module, which is not among
    the sources and may raise: both are parameters. *)
Variable keccak : list byte → list byte.
Variable private_key_to_public_key : list byte → outcome (list byte).

(** [keccak(public_key)[12:]] *)
Definition private_key_to_address (private_key : list byte) : outcome (list byte) :=
  public_key ← private_key_to_public_key private_key;
  let account := drop 12 (keccak public_key) in
  Ok account.

End Keys.
End Accounts.


Import Toolz Common Outbound.

(** ** Sample records *)
Module Sample.

Definition dict (items : list (string * pyvalue)) : gmap key pyvalue :=
  list_to_map (prod_map KStr id <$> items).

Definition record (items : list (string * pyvalue)) : pyvalue :=
  VDict (dict items).

Definition address20 : pyvalue := VBytes (replicate 20 x01).
Definition address19 : pyvalue := VBytes (replicate 19 x01).
Definition hash32 : pyvalue := VBytes (replicate 32 xaa).

Definition legacy_items : list (string * pyvalue) :=
  [ ("type", VInt 0); ("hash", hash32); ("nonce", VInt 7);
    ("block_hash", hash32); ("block_number", VInt 1);
    ("transaction_index", VInt 0); ("from", address20); ("to", address20);
    ("value", VInt 1000); ("gas", VInt 21000); ("gas_price", VInt 1);
    ("data", VBytes []); ("v", VInt 27); ("r", VInt 5); ("s", VInt 6) ].

Definition legacy_tx : pyvalue := record legacy_items.

Definition access_list_items : list (string * pyvalue) :=
  [ ("type", VInt 1); ("hash", hash32); ("nonce", VInt 7);
    ("block_hash", hash32); ("block_number", VInt 1);
    ("transaction_index", VInt 0); ("from", address20); ("to", address20);
    ("value", VInt 1000); ("gas", VInt 21000); ("gas_price", VInt 1);
    ("data", VBytes []); ("v", VInt 1); ("r", VInt 5); ("s", VInt 6);
    ("y_parity", VInt 1); ("chain_id", VInt 131277322940537);
    ("access_list", VList [VTuple [address20; VTuple [VInt 1; VInt 2]]]) ].

Definition dynamic_fee_items : list (string * pyvalue) :=
  access_list_items
    ++ [ ("max_fee_per_gas", VInt 10000000000);
         ("max_priority_fee_per_gas", VInt 10000000000) ].

Definition dynamic_fee_tx : pyvalue := record dynamic_fee_items.

Definition authorization : pyvalue :=
  record [ ("chain_id", VInt 131277322940537); ("address", address20);
           ("nonce", VInt 0); ("y_parity", VInt 0); ("r", VInt 11);
           ("s", VInt 12) ].

Definition set_code_tx : pyvalue :=
  record (dynamic_fee_items ++ [ ("authorization_list", VList [authorization]) ]).

Definition block_items (transactions : pyvalue) : list (string * pyvalue) :=
  [ ("number", VInt 1); ("hash", hash32); ("parent_hash", hash32);
    ("nonce", VBytes (replicate 8 x00)); ("sha3_uncles", hash32);
    ("logs_bloom", VInt 0); ("transactions_root", hash32);
    ("receipts_root", hash32); ("state_root", hash32);
    ("coinbase", address20); ("difficulty", VInt 0); ("mix_hash", hash32);
    ("total_difficulty", VInt 0); ("size", VInt 600);
    ("extra_data", hash32); ("gas_limit", VInt 30000000);
    ("gas_used", VInt 21000); ("timestamp", VInt 1700000000);
    ("transactions", transactions); ("uncles", VList []) ].

(** A London block as the backend hands it over: the base fee is there,
    the fields of the later forks are not. *)
Definition london_fields (transactions : pyvalue) : gmap key pyvalue :=
  dict (block_items transactions ++ [ ("base_fee_per_gas", VInt 1000000000) ]).

Definition london_block (transactions : pyvalue) : pyvalue :=
  VDict (london_fields transactions).

(** Fork rules that read the fork off the fields the record carries. *)
Definition has_field (k : string) (block : pyvalue) : bool :=
  match block with
  | VDict d => bool_decide (is_Some (d !! KStr k))
  | _ => false
  end.

Definition by_fields : ForkRules :=
  {| is_london_block := has_field "base_fee_per_gas";
     is_shanghai_block := has_field "withdrawals_root";
     is_cancun_block := has_field "parent_beacon_block_root";
     is_prague_block := has_field "requests_hash" |}.

End Sample.


(** * The vocabulary of the statements *)

(** [t[k](v)]: the validator a table holds under a name, applied. *)
Definition field_validator (t : table) (k : string) : validator :=
  λ v, match lookup k t with
       | Some f => f v
       | None => Raise KeyError
       end.

(** The two items of a list or tuple of length two. *)
Definition pair_items (e : pyvalue) : option (pyvalue * pyvalue) :=
  match e with
  | VList [a; ks] | VTuple [a; ks] => Some (a, ks)
  | _ => None
  end.

(** What the loop body checks of a pair: twenty bytes, then a list or tuple
    of integers of either sign. *)
Definition well_formed_entry (e : pyvalue) : bool :=
  match pair_items e with
  | Some (a, ks) =>
      is_canonical_address a && is_list_like ks && forallb is_integer (items ks)
  | None => false
  end.

(** [f] returns [None] where [p] holds and raises [ValidationError] where
    it does not. *)
Definition decides (f : validator) (p : pyvalue → bool) : Prop :=
  ∀ v, if p v then f v = Ok VNone else is_validation_error (f v) = true.

(** An integer from 0 to [max]. *)
Definition uint_upto (max : Z) (v : pyvalue) : bool :=
  match v with
  | VInt z => bool_decide (0 ≤ z ≤ max)
  | _ => false
  end.

(** The integer 0 or the integer 1. *)
Definition is_bit (v : pyvalue) : bool :=
  match v with
  | VInt z => bool_decide (z = 0 ∨ z = 1)
  | _ => false
  end.

(** A dictionary that holds the six names, and maybe others. *)
Definition has_authorization_keys (auth : pyvalue) : bool :=
  match auth with
  | VDict d => forallb (λ k, bool_decide (is_Some (d !! KStr k))) AUTHORIZATION_KEYS
  | _ => false
  end.

(** The item under [k] is there and satisfies [p]. *)
Definition item_is (auth : pyvalue) (k : string) (p : pyvalue → bool) : bool :=
  match Py.getitem auth (KStr k) with
  | Ok x => p x
  | Raise _ => false
  end.

(** The six range checks of an authorization. *)
Definition well_formed_authorization (auth : pyvalue) : bool :=
  item_is auth "chain_id" (uint_upto UINT256_MAX)
  && item_is auth "address" is_canonical_address
  && item_is auth "nonce" (uint_upto UINT64_MAX)
  && item_is auth "y_parity" is_bit
  && item_is auth "r" (uint_upto UINT256_MAX)
  && item_is auth "s" (uint_upto UINT256_MAX).

(** An authorization with a seventh name. *)
Definition authorization_with_extra : gmap key pyvalue :=
  <[KStr "extra" := VNone]>
    (match Sample.authorization with VDict d => d | _ => ∅ end).

(** The five kinds of transaction record. *)
Inductive tx_kind :=
| Legacy
| AccessList
| DynamicFee
| Blob
| SetCode.

#[global] Instance tx_kind_eq_dec : EqDecision tx_kind.
Proof. solve_decision. Defined.

(** The table of validators of each kind. *)
Definition tx_table (k : tx_kind) : table :=
  match k with
  | Legacy => LEGACY_TRANSACTION_VALIDATORS
  | AccessList => ACCESS_LIST_TRANSACTION_VALIDATORS
  | DynamicFee => DYNAMIC_FEE_TRANSACTION_VALIDATORS
  | Blob => BLOB_TRANSACTION_VALIDATORS
  | SetCode => SET_CODE_TRANSACTION_VALIDATORS
  end.

(** A fully materialized transaction record of kind [k]: one the
    dictionary validator of that kind accepts. *)
Definition is_transaction (k : tx_kind) (r : pyvalue) : Prop :=
  validate_dict r (tx_table k) = Ok VNone.

(** The seven names the resolver looks after. *)
Definition FORK_FIELDS : list string :=
  [ "base_fee_per_gas"; "withdrawals"; "withdrawals_root";
    "parent_beacon_block_root"; "blob_gas_used"; "excess_blob_gas";
    "requests_hash" ].

(** [block.get(k)] on the contents of the argument object: nothing when the
    object is not a dictionary. *)
Definition item (s : pyvalue) (k : key) : option pyvalue :=
  match s with
  | VDict d => d !! k
  | _ => None
  end.

(** [s'] differs from [s] at most under the names [ks]. *)
Definition writes_only (ks : list string) (s s' : pyvalue) : Prop :=
  (is_dict s = false → s' = s)
  ∧ (is_dict s' = is_dict s)
  ∧ (∀ k : key, k ∉ KStr <$> ks → item s' k = item s k).

(** [block[k] = None] for each of [ks] in turn. *)
Definition set_null (ks : list string) (d : gmap key pyvalue) : gmap key pyvalue :=
  foldl (λ d k, <[KStr k := VNone]> d) d ks.

(** The shape of each of the four stages: under the predicate, checks that
    leave the object alone; otherwise, assignments of [None]. *)
Definition stage (p : pyvalue → bool) (check : pyvalue → outcome unit)
    (ks : list string) : M unit :=
  λ s, if p s then (check s, s)
       else match s with
            | VDict d => (Ok (), VDict (set_null ks d))
            | _ => (Raise TypeError, s)
            end.

(** What each stage checks when its predicate holds. *)
Definition london_check (s : pyvalue) : outcome unit :=
  x ← Py.getitem s (KStr "base_fee_per_gas");
  _ ← validate_positive_integer x; Ok ().

Definition shanghai_check (s : pyvalue) : outcome unit :=
  x ← Py.getitem s (KStr "withdrawals");
  _ ← validate_array x validate_withdrawal;
  x ← Py.getitem s (KStr "withdrawals_root");
  _ ← validate_32_byte_string x; Ok ().

Definition cancun_check (s : pyvalue) : outcome unit :=
  x ← Py.getitem s (KStr "parent_beacon_block_root");
  _ ← validate_32_byte_string x;
  x ← Py.getitem s (KStr "blob_gas_used");
  _ ← validate_positive_integer x;
  x ← Py.getitem s (KStr "excess_blob_gas");
  _ ← validate_positive_integer x; Ok ().

Definition prague_check (s : pyvalue) : outcome unit :=
  x ← Py.getitem s (KStr "requests_hash");
  _ ← validate_32_byte_string x; Ok ().

(** The names of each stage. *)
Definition LONDON_FIELDS : list string := ["base_fee_per_gas"].
Definition SHANGHAI_FIELDS : list string := ["withdrawals"; "withdrawals_root"].
Definition CANCUN_FIELDS : list string :=
  ["parent_beacon_block_root"; "blob_gas_used"; "excess_blob_gas"].
Definition PRAGUE_FIELDS : list string := ["requests_hash"].

(** The hypothesis on the names that are not fork-specific, as a
    computation. *)
Definition other_fields_valid (b : gmap key pyvalue) (t : table) : bool :=
  forallb (λ kf : string * validator,
             bool_decide (kf.1 ∈ FORK_FIELDS)
             || match b !! KStr kf.1 with
                | Some x => is_ok (kf.2 x)
                | None => false
                end) t.

Section ForkFieldsStates.
Context `{ForkRules}.

(** The contents of the object when each later stage starts. *)
Definition after_london (s : pyvalue) : pyvalue := (london_stage s).2.
Definition after_shanghai (s : pyvalue) : pyvalue :=
  (shanghai_stage (after_london s)).2.
Definition after_cancun (s : pyvalue) : pyvalue :=
  (cancun_stage (after_shanghai s)).2.

End ForkFieldsStates.

(** ** Shapes of records *)

(** A byte string of [n] bytes. *)
Definition bytes_of_length (n : nat) (v : pyvalue) : bool :=
  match v with
  | VBytes bs => bool_decide (length bs = n)
  | _ => false
  end.




(** A list or tuple of byte strings of 20 bytes. *)
Definition is_account_list (v : pyvalue) : bool :=
  is_list_like v && forallb (bytes_of_length 20) (items v).

(** [r[k] = v] on a copy of a dictionary. *)
Definition with_item (r : pyvalue) (k : string) (v : pyvalue) : pyvalue :=
  match r with
  | VDict d => VDict (<[KStr k := v]> d)
  | _ => r
  end.

(** [del r[k]] for each of [ks], on a copy of a dictionary. *)
Definition without_items (ks : list string) (r : pyvalue) : pyvalue :=
  match r with
  | VDict d => VDict (foldr (λ k m, delete (KStr k) m) d ks)
  | _ => r
  end.

(** The fields a transaction has no value for until it is mined. *)
Definition PENDING_FIELDS : list string :=
  ["block_hash"; "block_number"; "transaction_index"].

(** The fields a log entry has no value for while it is pending. *)
Definition PENDING_LOG_FIELDS : list string :=
  ["transaction_index"; "block_hash"; "block_number"].

(** The names each kind adds to the kind it extends. *)
Definition DYNAMIC_FEE_FIELDS : list string :=
  ["max_fee_per_gas"; "max_priority_fee_per_gas"].
Definition BLOB_FIELDS : list string :=
  ["max_fee_per_blob_gas"; "blob_versioned_hashes"].
Definition SET_CODE_FIELDS : list string := ["authorization_list"].

(** Fork rules under which no fork has happened, and rules under which
    every fork has. *)
Definition no_fork : ForkRules :=
  {| is_london_block := λ _, false;
     is_shanghai_block := λ _, false;
     is_cancun_block := λ _, false;
     is_prague_block := λ _, false |}.

Definition every_fork : ForkRules :=
  {| is_london_block := λ _, true;
     is_shanghai_block := λ _, true;
     is_cancun_block := λ _, true;
     is_prague_block := λ _, true |}.

(** A London block whose base fee is negative. *)
Definition negative_fee_fields : gmap key pyvalue :=
  <[KStr "base_fee_per_gas" := VInt (-1)]> (Sample.london_fields (VList [])).

(** Stand-ins for the two parameters of the accounts module: a digest of 32
    zero bytes and a public key equal to the private key. *)
Definition zero_digest (data : list byte) : list byte := replicate 32 x00.
Definition same_key (private_key : list byte) : outcome (list byte) :=
  Ok private_key.

(** * Properties *)

(** ** Loops and combinators *)

Lemma for_each_ok {A} (xs : list A) (body : A → outcome unit) :
  Py.for_each xs body = Ok () ↔ Forall (λ x, body x = Ok ()) xs.
Proof.
  induction xs as [|x xs IH]; simpl.
  - split; [constructor | reflexivity].
  - rewrite Forall_cons, <- IH. unfold mbind, outcome_bind.
    destruct (body x) as [[]|e]; [tauto|].
    split; [discriminate | intros [[=] _]].
Qed.

(** A loop raises what its first failing item raises. *)
Lemma for_each_raise {A} (xs : list A) (body : A → outcome unit) e :
  Py.for_each xs body = Raise e → ∃ x, x ∈ xs ∧ body x = Raise e.
Proof.
  induction xs as [|x xs IH]; simpl; [discriminate|].
  unfold mbind, outcome_bind. destruct (body x) as [[]|e'] eqn:Hx.
  - intros Hr. destruct (IH Hr) as (y & Hy & Hb). exists y. split; [by right | done].
  - intros [= ->]. exists x. split; [by left | done].
Qed.

Lemma for_each_fails {A} (xs : list A) (body : A → outcome unit) x :
  x ∈ xs → is_ok (body x) = false → is_ok (Py.for_each xs body) = false.
Proof.
  intros Hin Hx. destruct (Py.for_each xs body) as [[]|e] eqn:Hf; [|done].
  apply for_each_ok in Hf. rewrite Forall_forall in Hf.
  rewrite (Hf x Hin) in Hx. discriminate.
Qed.

Lemma validate_array_ok (xs : list pyvalue) (f : validator) :
  validate_array (VList xs) f = Ok VNone ↔ Forall (λ x, is_ok (f x) = true) xs.
Proof.
  unfold validate_array, mbind, outcome_bind.
  destruct (Py.for_each xs _) as [[]|e] eqn:Hf.
  - apply for_each_ok in Hf. split; [intros _ | done].
    eapply Forall_impl; [exact Hf|]. simpl. intros x.
    unfold mbind, outcome_bind. by destruct (f x).
  - split; [discriminate|]. intros Hall. exfalso.
    apply for_each_raise in Hf as (x & Hin & Hx).
    rewrite Forall_forall in Hall. specialize (Hall x Hin).
    unfold mbind, outcome_bind in Hx. by destruct (f x).
Qed.

Lemma validate_array_fails (xs : list pyvalue) (f : validator) x :
  x ∈ xs → is_ok (f x) = false → is_ok (validate_array (VList xs) f) = false.
Proof.
  intros Hin Hx.
  assert (is_ok (Py.for_each xs (λ x, _ ← f x; Ok ())) = false) as Hf.
  { apply for_each_fails with x; [done|].
    unfold mbind, outcome_bind. by destruct (f x). }
  unfold validate_array. unfold mbind at 1, outcome_bind at 1.
  by destruct (Py.for_each xs _).
Qed.

(** An array of validators that raise nothing but [ValidationError]
    raises nothing else. *)
Lemma validate_array_raise (v : pyvalue) (f : validator) e :
  validate_array v f = Raise e →
  (∀ x e', f x = Raise e' → ∃ msg, e' = ValidationError msg) →
  ∃ msg, e = ValidationError msg.
Proof.
  intros Hr Hf. unfold validate_array in Hr.
  assert (∀ xs, (_ ← Py.for_each xs (λ x, _ ← f x; Ok ()); Ok VNone) = Raise e →
                ∃ msg, e = ValidationError msg) as Hseq.
  { intros xs. unfold mbind at 1, outcome_bind at 1.
    destruct (Py.for_each xs _) as [[]|e'] eqn:Hl; [discriminate|]. intros [= ->].
    apply for_each_raise in Hl as (x & _ & Hx).
    unfold mbind, outcome_bind in Hx.
    destruct (f x) eqn:Hfx; [discriminate|]. injection Hx as ->. eauto. }
  destruct v; try (injection Hr as <-; eauto); eauto.
Qed.

Lemma validate_any_head (v : pyvalue) (f : validator) (fs : list validator) :
  is_ok (f v) = true → validate_any v (f :: fs) = Ok VNone.
Proof. simpl. by destruct (f v). Qed.

Lemma validate_any_skip (v : pyvalue) (f : validator) (fs : list validator) :
  is_validation_error (f v) = true → validate_any v (f :: fs) = validate_any v fs.
Proof. simpl. by destruct (f v) as [|[]]. Qed.

Lemma validate_any_fails (v : pyvalue) (fs : list validator) :
  Forall (λ f : validator, is_ok (f v) = false) fs → is_ok (validate_any v fs) = false.
Proof.
  induction 1 as [|f fs Hf _ IH]; simpl; [done|].
  destruct (f v) as [|[]]; done.
Qed.

(** ** Dictionaries against a table of validators *)

Lemma validate_dict_ok (d : gmap key pyvalue) (t : table) (r : pyvalue) :
  validate_dict (VDict d) t = Ok r ↔
  r = VNone ∧ dom d = key_set t ∧
  Forall (λ kf, ∃ x, d !! KStr kf.1 = Some x ∧ is_ok (kf.2 x) = true) t.
Proof.
  unfold validate_dict. case_bool_decide as Hdom.
  - unfold mbind at 1, outcome_bind at 1.
    destruct (Py.for_each t _) as [[]|e] eqn:Hf.
    + apply for_each_ok in Hf. split; [intros [= <-] | by intros (-> & _)].
      split_and!; [done..|]. eapply Forall_impl; [exact Hf|].
      intros [k f]; simpl. unfold mbind, outcome_bind.
      destruct (d !! KStr k) as [x|]; [|discriminate].
      destruct (f x) eqn:Hfx; [|discriminate]. intros _. exists x. by rewrite Hfx.
    + split; [discriminate|]. intros (_ & _ & Hall). exfalso.
      apply for_each_raise in Hf as ([k f] & Hin & Hx).
      rewrite Forall_forall in Hall. destruct (Hall _ Hin) as (x & Hl & Hok).
      simpl in *. unfold mbind, outcome_bind in Hx. rewrite Hl in Hx.
      by destruct (f x).
  - split; [discriminate | by intros (_ & Hd & _)].
Qed.

Lemma validate_dict_wrong_keys (d : gmap key pyvalue) (t : table) :
  dom d ≠ key_set t → is_validation_error (validate_dict (VDict d) t) = true.
Proof. intros Hne. unfold validate_dict. by rewrite bool_decide_eq_false_2. Qed.

Lemma validate_dict_is_dict (v : pyvalue) (t : table) :
  is_ok (validate_dict v t) = true → ∃ d, v = VDict d.
Proof. destruct v; try discriminate. eauto. Qed.

(** A record accepted under one table is refused under any table with
    another set of names. *)
Lemma validate_dict_exclusive (v : pyvalue) (t1 t2 : table) :
  is_ok (validate_dict v t1) = true → key_set t1 ≠ key_set t2 →
  is_validation_error (validate_dict v t2) = true.
Proof.
  intros Hok Hne. destruct (validate_dict_is_dict _ _ Hok) as [d ->].
  destruct (validate_dict (VDict d) t1) as [r|] eqn:H1; [|discriminate].
  apply validate_dict_ok in H1 as (_ & Hdom & _).
  apply validate_dict_wrong_keys. congruence.
Qed.

(** ** The signature's [v] *)

(** C3, as amended: [validate_signature_v] returns normally exactly on the
    integers 0, 1, 27, 28 and on those from 35 up to [UINT256_MAX]; on every
    other value (an integer in 2..26 or 29..34, a negative one, one above
    [UINT256_MAX], anything that is not an integer) it raises
    [ValidationError]. *)
Theorem validate_signature_v_accepts (v : pyvalue) :
  (validate_signature_v v = Ok VNone ↔
     ∃ z, v = VInt z ∧ (z ∈ [0; 1; 27; 28] ∨ 35 ≤ z ≤ UINT256_MAX))
  ∧ (is_ok (validate_signature_v v) || is_validation_error (validate_signature_v v) = true).
Proof.
  unfold validate_signature_v, validate_positive_integer, mbind, outcome_bind.
  destruct v as [| |z| | | | |];
    try (split; [split; [discriminate | by intros (? & [=] & _)] | reflexivity]).
  unfold Py.in_ints, Py.in_range; simpl.
  destruct (bool_decide_reflect (0 ≤ z)) as [Hz|Hz].
  - destruct (bool_decide_reflect (z ∈ [0; 1; 27; 28])) as [Hl|Hl]; simpl.
    + split; [|reflexivity]. split; [eauto|done].
    + destruct (bool_decide_reflect (35 ≤ z < UINT256_MAX + 1)) as [Hr|Hr]; simpl.
      * split; [|reflexivity]. split; [intros _ | done].
        exists z. split; [done|]. right. lia.
      * split; [|reflexivity]. split; [discriminate|].
        intros (? & [= <-] & [?|?]); [done|]. exfalso. apply Hr. lia.
  - split; [|reflexivity]. split; [discriminate|].
    intros (? & [= <-] & [Hl|?]); [|lia].
    exfalso. apply Hz. rewrite !elem_of_cons, elem_of_nil in Hl. lia.
Qed.

(** C3, counterexample: [2^256] is an integer not below 35, and it is
    refused. *)
Lemma validate_signature_v_refuses_2_256 :
  35 ≤ 2 ^ 256 ∧
  validate_signature_v (VInt (2 ^ 256))
  = Raise (ValidationError
             "The `v` portion of the signature must be 0, 1, 27, 28 or >= 35").
Proof. split; [done | vm_compute; reflexivity]. Qed.

(** ** Exceptions other than [ValidationError] *)

(** C6, the code at the failing inputs: an access list whose entry is the
    integer 5 makes [len] raise [TypeError]; an authorization list whose
    entry is an empty dictionary makes the subscript raise [KeyError]; a
    list given as log entry type cannot be hashed. *)
Theorem list_validators_leak_exceptions :
  _validate_outbound_access_list (VList [VInt 5]) = Raise TypeError
  ∧ _validate_outbound_authorization_list (VList [VDict ∅]) = Raise KeyError
  ∧ validate_log_entry_type (VList []) = Raise TypeError.
Proof. vm_compute. done. Qed.

(** ** The transactions of a block *)

(** C1, the code at the failing input: a set-code transaction that
    [validate_set_code_transaction] and [validate_transaction] accept is
    refused as the only transaction of a block, by the [transactions]
    validator of [BLOCK_VALIDATORS] and so by [validate_block]; the same
    block with a legacy transaction passes. *)
Theorem block_refuses_set_code_transactions :
  validate_set_code_transaction Sample.set_code_tx = Ok VNone
  ∧ validate_transaction Sample.set_code_tx = Ok VNone
  ∧ is_validation_error
      (field_validator BLOCK_VALIDATORS "transactions" (VList [Sample.set_code_tx])) = true
  ∧ is_validation_error
      (@validate_block Sample.by_fields
         (Sample.london_block (VList [Sample.set_code_tx]))).1 = true
  ∧ (@validate_block Sample.by_fields
       (Sample.london_block (VList [Sample.legacy_tx]))).1 = Ok (Imm VNone).
Proof. vm_compute. done. Qed.

(** ** Access lists *)

Lemma access_list_entry_pair (e a ks : pyvalue) :
  pair_items e = Some (a, ks) →
  (access_list_entry e = Ok () ↔ well_formed_entry e = true)
  ∧ (is_ok (access_list_entry e) || is_validation_error (access_list_entry e) = true).
Proof.
  intros Hp. unfold well_formed_entry. rewrite Hp.
  assert (access_list_entry e =
            (address_ok ← (if is_bytes a
                           then n ← Py.len a; Ok (bool_decide (n = 20))
                           else Ok false);
             if negb address_ok
             then Raise (ValidationError "access_list address not properly formatted")
             else if negb (is_list_like ks)
             then Raise (ValidationError "access_list storage keys are not list-like")
             else
               n ← Py.len ks;
               if bool_decide (n > 0) && negb (forallb is_integer (items ks))
               then Raise (ValidationError
                      "one or more access list storage keys not formatted properly")
               else Ok ())) as ->.
  { destruct e as [| | | | |[|? [|? [|]]]|[|? [|? [|]]]|]; try discriminate;
      injection Hp as -> ->; reflexivity. }
  destruct a as [| | | |bs| | |]; simpl; try (split; [split|]; done).
  unfold mbind, outcome_bind.
  destruct (bool_decide_reflect (Z.of_nat (length bs) = 20)) as [Hb|Hb]; simpl;
    [rewrite (bool_decide_eq_true_2 (length bs = 20%nat)) by lia
    |rewrite (bool_decide_eq_false_2 (length bs = 20%nat)) by lia;
     split; [split|]; done].
  destruct ks as [| | | | |xs|xs|]; simpl; try (split; [split|]; done);
    (destruct xs as [|x xs]; [simpl; split; [split|]; done|]);
    rewrite bool_decide_eq_true_2 by (rewrite length_cons; lia);
    destruct (forallb is_integer (x :: xs)); simpl; (split; [split|]; done).
Qed.

Lemma for_each_checked {A} (xs : list A) (body : A → outcome unit) :
  Forall (λ x, is_ok (body x) || is_validation_error (body x) = true) xs →
  is_ok (Py.for_each xs body) || is_validation_error (Py.for_each xs body) = true.
Proof.
  induction 1 as [|x xs Hx _ IH]; simpl; [done|].
  unfold mbind, outcome_bind. by destruct (body x) as [[]|[]].
Qed.

(** C4, as amended: on a list (or tuple) whose entries are all lists or
    tuples of length two, [_validate_outbound_access_list] returns normally
    exactly when, in every entry, the first item is a byte string of length
    20 and the second a list or tuple, possibly empty, of integers of either
    sign; otherwise it raises [ValidationError].  So an entry with a 19-byte
    address is refused, and one with a negative storage key is not. *)
Theorem access_list_of_pairs (al : pyvalue) :
  is_list_like al = true →
  Forall (λ e, is_Some (pair_items e)) (items al) →
  (_validate_outbound_access_list al = Ok VNone ↔
     Forall (λ e, well_formed_entry e = true) (items al))
  ∧ (is_ok (_validate_outbound_access_list al)
     || is_validation_error (_validate_outbound_access_list al) = true).
Proof.
  intros Hl Hpairs. unfold _validate_outbound_access_list. rewrite Hl. simpl.
  unfold mbind, outcome_bind.
  assert (Forall (λ e, (access_list_entry e = Ok () ↔ well_formed_entry e = true)
                       ∧ (is_ok (access_list_entry e)
                          || is_validation_error (access_list_entry e) = true))
                 (items al)) as Hent.
  { eapply Forall_impl; [exact Hpairs|]. intros e [[a ks] Hp]. simpl.
    by apply access_list_entry_pair with a ks. }
  split.
  - destruct (Py.for_each (items al) access_list_entry) as [[]|err] eqn:Hf.
    + split; [intros _ | done]. apply for_each_ok in Hf.
      rewrite Forall_forall in Hf, Hent. apply Forall_forall. intros e Hin.
      apply (Hent e Hin), Hf, Hin.
    + split; [discriminate|]. intros Hwf. exfalso.
      apply for_each_raise in Hf as (e & Hin & He).
      rewrite Forall_forall in Hwf, Hent.
      apply (Hent e Hin) in Hwf; [|done]. congruence.
  - assert (is_ok (Py.for_each (items al) access_list_entry)
            || is_validation_error (Py.for_each (items al) access_list_entry) = true) as Hc.
    { apply for_each_checked. eapply Forall_impl; [exact Hent|]. by intros e [_ ?]. }
    by destruct (Py.for_each (items al) access_list_entry) as [[]|[]].
Qed.

Lemma access_list_of_pairs_witness :
  let al := VList [VTuple [Sample.address20; VList [VInt 1; VInt 2]]] in
  is_list_like al = true
  ∧ Forall (λ e, is_Some (pair_items e)) (items al)
  ∧ (_validate_outbound_access_list al = Ok VNone ↔
       Forall (λ e, well_formed_entry e = true) (items al))
  ∧ (is_ok (_validate_outbound_access_list al)
     || is_validation_error (_validate_outbound_access_list al) = true).
Proof.
  intros al.
  assert (is_list_like al = true) as Hl by reflexivity.
  assert (Forall (λ e, is_Some (pair_items e)) (items al)) as Hp
    by (repeat constructor; by eexists).
  exact (conj Hl (conj Hp (access_list_of_pairs al Hl Hp))).
Defined.

(** C4, counterexample: an entry whose storage key is [-1] is accepted. *)
Lemma access_list_accepts_negative_key :
  -1 < 0 ∧
  _validate_outbound_access_list (VList [VTuple [Sample.address20; VList [VInt (-1)]]])
  = Ok VNone.
Proof. split; [done | vm_compute; reflexivity]. Qed.

(** ** Field checks as decisions *)

Lemma validate_positive_integer_decides :
  decides validate_positive_integer (λ v, match v with VInt z => bool_decide (0 ≤ z) | _ => false end).
Proof.
  intros [| |z| | | | |]; try reflexivity. unfold validate_positive_integer.
  by destruct (bool_decide (0 ≤ z)).
Qed.

Lemma uint_decides (max : Z) (f : validator) msg :
  (∀ v, f v = (_ ← validate_positive_integer v;
               b ← Py.gt v max;
               if b : bool then Raise (ValidationError msg) else Ok VNone)) →
  decides f (uint_upto max).
Proof.
  intros Hf [| |z| | | | |]; rewrite Hf; try reflexivity.
  unfold validate_positive_integer, uint_upto, mbind, outcome_bind. simpl.
  destruct (bool_decide_reflect (0 ≤ z)); simpl;
    [|by rewrite bool_decide_eq_false_2 by lia].
  destruct (bool_decide_reflect (max < z));
    [by rewrite bool_decide_eq_false_2 by lia | by rewrite bool_decide_eq_true_2 by lia].
Qed.

Lemma validate_uint256_decides : decides validate_uint256 (uint_upto UINT256_MAX).
Proof. by eapply uint_decides. Qed.

Lemma validate_uint64_decides : decides validate_uint64 (uint_upto UINT64_MAX).
Proof. by eapply uint_decides. Qed.

Lemma validate_canonical_address_decides :
  decides validate_canonical_address is_canonical_address.
Proof.
  intros [| | | |bs| | |]; try reflexivity.
  unfold validate_canonical_address, mbind, outcome_bind. simpl.
  by destruct (bool_decide (length bs = 20%nat)).
Qed.

Lemma validate_y_parity_decides : decides validate_y_parity is_bit.
Proof.
  intros [| |z| | | | |]; try reflexivity.
  unfold validate_y_parity, validate_positive_integer, is_bit, Py.in_ints,
    mbind, outcome_bind. simpl.
  destruct (bool_decide_reflect (0 ≤ z)); simpl;
    [|by rewrite bool_decide_eq_false_2 by lia].
  destruct (bool_decide_reflect (z ∈ [0; 1])) as [Hz|Hz];
    rewrite !elem_of_cons, elem_of_nil in Hz; simpl;
    [by rewrite bool_decide_eq_true_2 by tauto
    |by rewrite bool_decide_eq_false_2 by tauto].
Qed.

(** ** Authorization lists *)

(** One subscript-and-check line of the loop body. *)
Lemma checked_item (auth : pyvalue) (k : string) (f : validator) (p : pyvalue → bool)
    (rest : outcome unit) (q : bool) :
  decides f p →
  is_ok (Py.getitem auth (KStr k)) = true →
  (rest = Ok () ↔ q = true) ∧ (is_ok rest || is_validation_error rest = true) →
  let line := x ← Py.getitem auth (KStr k); _ ← f x; rest in
  (line = Ok () ↔ item_is auth k p && q = true)
  ∧ (is_ok line || is_validation_error line = true).
Proof.
  intros Hf Hk [Hrest Hc]. unfold item_is. simpl.
  destruct (Py.getitem auth (KStr k)) as [x|]; [|discriminate].
  unfold mbind, outcome_bind. specialize (Hf x). destruct (p x).
  - rewrite Hf. simpl. done.
  - destruct (f x) as [|[]]; try discriminate. simpl. done.
Qed.

Lemma authorization_entry_with_keys (auth : pyvalue) :
  has_authorization_keys auth = true →
  (authorization_entry auth = Ok () ↔ well_formed_authorization auth = true)
  ∧ (is_ok (authorization_entry auth)
     || is_validation_error (authorization_entry auth) = true).
Proof.
  destruct auth as [| | | | | | |d]; try discriminate. simpl.
  rewrite !andb_true_iff, !bool_decide_eq_true.
  intros (Hc & Ha & Hn & Hy & Hr & Hs & _).
  assert (∀ k, is_Some (d !! KStr k) → is_ok (Py.getitem (VDict d) (KStr k)) = true) as Hget.
  { intros k [x Hx]. simpl. by rewrite Hx. }
  unfold authorization_entry, well_formed_authorization. simpl is_dict.
  cbn [negb mbind outcome_bind].
  rewrite <- (andb_true_r (item_is _ "s" _)), <- !andb_assoc.
  apply checked_item; [apply validate_uint256_decides | by apply Hget |].
  apply checked_item; [apply validate_canonical_address_decides | by apply Hget |].
  apply checked_item; [apply validate_uint64_decides | by apply Hget |].
  apply checked_item; [apply validate_y_parity_decides | by apply Hget |].
  apply checked_item; [apply validate_uint256_decides | by apply Hget |].
  apply checked_item; [apply validate_uint256_decides | by apply Hget |].
  done.
Qed.

(** C5, as amended: on a list (or tuple) whose entries are all dictionaries
    holding the six names [chain_id], [address], [nonce], [y_parity], [r]
    and [s] -- whatever other names they hold besides --
    [_validate_outbound_authorization_list] returns normally exactly when,
    in every entry, [chain_id], [r] and [s] are integers of the 256-bit
    range, [address] is a byte string of length 20, [nonce] is an integer of
    the 64-bit range and [y_parity] is 0 or 1; otherwise it raises
    [ValidationError]. *)
Theorem authorization_list_with_keys (al : pyvalue) :
  is_list_like al = true →
  Forall (λ auth, has_authorization_keys auth = true) (items al) →
  (_validate_outbound_authorization_list al = Ok VNone ↔
     Forall (λ auth, well_formed_authorization auth = true) (items al))
  ∧ (is_ok (_validate_outbound_authorization_list al)
     || is_validation_error (_validate_outbound_authorization_list al) = true).
Proof.
  intros Hl Hkeys. unfold _validate_outbound_authorization_list. rewrite Hl. simpl.
  unfold mbind, outcome_bind.
  assert (Forall (λ e, (authorization_entry e = Ok () ↔ well_formed_authorization e = true)
                       ∧ (is_ok (authorization_entry e)
                          || is_validation_error (authorization_entry e) = true))
                 (items al)) as Hent.
  { eapply Forall_impl; [exact Hkeys|]. intros e. apply authorization_entry_with_keys. }
  split.
  - destruct (Py.for_each (items al) authorization_entry) as [[]|err] eqn:Hf.
    + split; [intros _ | done]. apply for_each_ok in Hf.
      rewrite Forall_forall in Hf, Hent. apply Forall_forall. intros e Hin.
      apply (Hent e Hin), Hf, Hin.
    + split; [discriminate|]. intros Hwf. exfalso.
      apply for_each_raise in Hf as (e & Hin & He).
      rewrite Forall_forall in Hwf, Hent.
      apply (Hent e Hin) in Hwf; [|done]. congruence.
  - assert (is_ok (Py.for_each (items al) authorization_entry)
            || is_validation_error (Py.for_each (items al) authorization_entry) = true) as Hc.
    { apply for_each_checked. eapply Forall_impl; [exact Hent|]. by intros e [_ ?]. }
    by destruct (Py.for_each (items al) authorization_entry) as [[]|[]].
Qed.

Lemma authorization_list_with_keys_witness :
  let al := VList [Sample.authorization] in
  is_list_like al = true
  ∧ Forall (λ auth, has_authorization_keys auth = true) (items al)
  ∧ (_validate_outbound_authorization_list al = Ok VNone ↔
       Forall (λ auth, well_formed_authorization auth = true) (items al))
  ∧ (is_ok (_validate_outbound_authorization_list al)
     || is_validation_error (_validate_outbound_authorization_list al) = true).
Proof.
  intros al.
  assert (is_list_like al = true) as Hl by reflexivity.
  assert (Forall (λ auth, has_authorization_keys auth = true) (items al)) as Hk
    by (repeat constructor).
  exact (conj Hl (conj Hk (authorization_list_with_keys al Hl Hk))).
Defined.

(** C5, counterexample: an entry that holds a name besides the six is
    accepted. *)
Lemma authorization_list_accepts_extra_key :
  dom authorization_with_extra ≠ list_to_set (KStr <$> AUTHORIZATION_KEYS)
  ∧ _validate_outbound_authorization_list (VList [VDict authorization_with_extra])
    = Ok VNone.
Proof.
  split; [|vm_compute; reflexivity].
  intros Heq.
  assert (KStr "extra" ∈ dom authorization_with_extra) as Hin.
  { apply elem_of_dom. unfold authorization_with_extra.
    rewrite lookup_insert_eq. by eexists. }
  rewrite Heq in Hin. unfold AUTHORIZATION_KEYS in Hin.
  rewrite elem_of_list_to_set, list_elem_of_fmap in Hin.
  destruct Hin as (k & [= <-] & Hk).
  rewrite !elem_of_cons, elem_of_nil in Hk. naive_solver.
Qed.

(** ** Transaction kinds *)

(** The five tables have 15, 18, 20, 22 and 21 names. *)
Lemma tx_tables_distinct (k k' : tx_kind) :
  k ≠ k' → key_set (tx_table k) ≠ key_set (tx_table k').
Proof.
  intros Hne Heq. apply (f_equal size) in Heq.
  destruct k, k';
    first [exfalso; apply Hne; reflexivity | vm_compute in Heq; discriminate Heq].
Qed.

Lemma transaction_other_kind (k k' : tx_kind) (r : pyvalue) :
  is_transaction k r → k ≠ k' →
  is_validation_error (validate_dict r (tx_table k')) = true.
Proof.
  intros Hr Hne. apply validate_dict_exclusive with (tx_table k).
  - unfold is_transaction in Hr. by rewrite Hr.
  - by apply tx_tables_distinct.
Qed.

Lemma transaction_not_hash (k : tx_kind) (r : pyvalue) :
  is_transaction k r → is_validation_error (validate_32_byte_string r) = true.
Proof.
  intros Hr. destruct (validate_dict_is_dict r (tx_table k)) as [d ->]; [|done].
  unfold is_transaction in Hr. by rewrite Hr.
Qed.

Lemma is_validation_error_not_ok {A} (o : outcome A) :
  is_validation_error o = true → is_ok o = false.
Proof. by destruct o. Qed.

Lemma validate_array_checked (xs : list pyvalue) (f : validator) :
  Forall (λ x, is_ok (f x) || is_validation_error (f x) = true) xs →
  is_ok (validate_array (VList xs) f)
  || is_validation_error (validate_array (VList xs) f) = true.
Proof.
  intros Hall. unfold validate_array.
  assert (is_ok (Py.for_each xs (λ x, _ ← f x; Ok ()))
          || is_validation_error (Py.for_each xs (λ x, _ ← f x; Ok ())) = true) as Hc.
  { apply for_each_checked. eapply Forall_impl; [exact Hall|]. simpl. intros x.
    unfold mbind, outcome_bind. by destruct (f x) as [|[]]. }
  unfold mbind at 1 3, outcome_bind at 1 3.
  by destruct (Py.for_each xs _) as [[]|[]].
Qed.

Lemma validate_any_all_refuse (v : pyvalue) (fs : list validator) :
  Forall (λ f : validator, is_validation_error (f v) = true) fs →
  is_validation_error (validate_any v fs) = true.
Proof.
  induction 1 as [|f fs Hf _ IH]; simpl; [done|].
  by destruct (f v) as [|[]].
Qed.

(** The validator under [transactions] is the union of five array
    validators. *)
Lemma block_transactions_unfold (v : pyvalue) :
  field_validator BLOCK_VALIDATORS "transactions" v
  = validate_any v
      [ (λ v, validate_array v validate_32_byte_string);
        (λ v, validate_array v (λ r, validate_dict r (tx_table Legacy)));
        (λ v, validate_array v (λ r, validate_dict r (tx_table AccessList)));
        (λ v, validate_array v (λ r, validate_dict r (tx_table DynamicFee)));
        (λ v, validate_array v (λ r, validate_dict r (tx_table Blob))) ].
Proof. reflexivity. Qed.

(** An array validator of one kind fails on a list that holds records of
    two kinds. *)
Lemma array_of_kind_fails (xs : list pyvalue) (k k1 k2 : tx_kind) (r1 r2 : pyvalue) :
  k1 ≠ k2 → r1 ∈ xs → r2 ∈ xs → is_transaction k1 r1 → is_transaction k2 r2 →
  is_ok (validate_array (VList xs) (λ r, validate_dict r (tx_table k))) = false.
Proof.
  intros Hne H1 H2 Hr1 Hr2. destruct (decide (k1 = k)) as [->|Hk].
  - apply validate_array_fails with r2; [done|].
    apply is_validation_error_not_ok. by apply transaction_other_kind with k2.
  - apply validate_array_fails with r1; [done|].
    apply is_validation_error_not_ok. by apply transaction_other_kind with k1.
Qed.

(** C8: a list that holds a transaction record of one kind and a record of
    another kind is refused by the [transactions] validator of
    [BLOCK_VALIDATORS]; when every item of the list is a transaction record
    of some kind, what is raised is [ValidationError]. *)
Theorem mixed_kinds_refused (xs : list pyvalue) (k1 k2 : tx_kind) (r1 r2 : pyvalue) :
  k1 ≠ k2 → r1 ∈ xs → r2 ∈ xs → is_transaction k1 r1 → is_transaction k2 r2 →
  is_ok (field_validator BLOCK_VALIDATORS "transactions" (VList xs)) = false
  ∧ (Forall (λ r, ∃ k, is_transaction k r) xs →
     is_validation_error
       (field_validator BLOCK_VALIDATORS "transactions" (VList xs)) = true).
Proof.
  intros Hne H1 H2 Hr1 Hr2. rewrite block_transactions_unfold.
  assert (is_ok (validate_array (VList xs) validate_32_byte_string) = false) as Hh.
  { apply validate_array_fails with r1; [done|].
    apply is_validation_error_not_ok. by apply transaction_not_hash with k1. }
  assert (∀ k, is_ok (validate_array (VList xs)
                        (λ r, validate_dict r (tx_table k))) = false) as Hk.
  { intros k. by apply array_of_kind_fails with k1 k2 r1 r2. }
  split.
  - apply validate_any_fails. repeat constructor; done.
  - intros Hall. apply validate_any_all_refuse.
    assert (is_ok (validate_array (VList xs) validate_32_byte_string)
            || is_validation_error
                 (validate_array (VList xs) validate_32_byte_string) = true) as Hh'.
    { apply validate_array_checked. eapply Forall_impl; [exact Hall|].
      intros r [k Hr]. simpl. rewrite (transaction_not_hash k r Hr).
      apply orb_true_r. }
    assert (∀ k, is_ok (validate_array (VList xs) (λ r, validate_dict r (tx_table k)))
                 || is_validation_error
                      (validate_array (VList xs)
                         (λ r, validate_dict r (tx_table k))) = true) as Hk'.
    { intros k. apply validate_array_checked. eapply Forall_impl; [exact Hall|].
      intros r [k' Hr]. simpl. destruct (decide (k' = k)) as [->|Hkk].
      - unfold is_transaction in Hr. by rewrite Hr.
      - rewrite (transaction_other_kind k' k r Hr Hkk). apply orb_true_r. }
    rewrite Hh in Hh'.
    repeat constructor; [exact Hh'|..];
      match goal with
      | |- is_validation_error (validate_array _ (λ r, validate_dict r (tx_table ?k))) = true =>
          specialize (Hk' k); by rewrite (Hk k) in Hk'
      end.
Qed.

Lemma mixed_kinds_refused_witness :
  let xs := [Sample.legacy_tx; Sample.dynamic_fee_tx] in
  Legacy ≠ DynamicFee
  ∧ Sample.legacy_tx ∈ xs
  ∧ Sample.dynamic_fee_tx ∈ xs
  ∧ is_transaction Legacy Sample.legacy_tx
  ∧ is_transaction DynamicFee Sample.dynamic_fee_tx
  ∧ is_ok (field_validator BLOCK_VALIDATORS "transactions" (VList xs)) = false
  ∧ (Forall (λ r, ∃ k, is_transaction k r) xs →
     is_validation_error
       (field_validator BLOCK_VALIDATORS "transactions" (VList xs)) = true).
Proof.
  intros xs.
  assert (Legacy ≠ DynamicFee) as Hne by discriminate.
  assert (Sample.legacy_tx ∈ xs) as H1 by (unfold xs; apply list_elem_of_here).
  assert (Sample.dynamic_fee_tx ∈ xs) as H2
    by (unfold xs; apply list_elem_of_further, list_elem_of_here).
  assert (is_transaction Legacy Sample.legacy_tx) as Hr1 by (vm_compute; reflexivity).
  assert (is_transaction DynamicFee Sample.dynamic_fee_tx) as Hr2
    by (vm_compute; reflexivity).
  exact (conj Hne (conj H1 (conj H2 (conj Hr1 (conj Hr2
           (mixed_kinds_refused xs Legacy DynamicFee _ _ Hne H1 H2 Hr1 Hr2)))))).
Defined.

Lemma validate_any_some (v : pyvalue) (fs : list validator) :
  Exists (λ f : validator, is_ok (f v) = true) fs →
  Forall (λ f : validator, is_ok (f v) || is_validation_error (f v) = true) fs →
  validate_any v fs = Ok VNone.
Proof.
  induction fs as [|f fs IH]; [by intros ?%Exists_nil|].
  rewrite Exists_cons, Forall_cons. intros Hex [Hf Hfs]. simpl.
  destruct (f v) as [|[]] eqn:Hfv; try done.
  apply IH; [|done]. by destruct Hex.
Qed.

(** What the [transactions] validator does accept: hashes, and the records
    of one of the four kinds it lists. *)
Lemma block_transactions_accept_hashes (xs : list pyvalue) :
  Forall (λ x, validate_32_byte_string x = Ok VNone) xs →
  field_validator BLOCK_VALIDATORS "transactions" (VList xs) = Ok VNone.
Proof.
  intros Hall. rewrite block_transactions_unfold. apply validate_any_head.
  cut (validate_array (VList xs) validate_32_byte_string = Ok VNone);
    [by intros ->|].
  apply validate_array_ok. eapply Forall_impl; [exact Hall|]. by intros x ->.
Qed.

Lemma array_of_kind_checked (xs : list pyvalue) (k k' : tx_kind) :
  Forall (is_transaction k) xs →
  is_ok (validate_array (VList xs) (λ r, validate_dict r (tx_table k')))
  || is_validation_error
       (validate_array (VList xs) (λ r, validate_dict r (tx_table k'))) = true.
Proof.
  intros Hall. apply validate_array_checked. eapply Forall_impl; [exact Hall|].
  intros r Hr. simpl. destruct (decide (k = k')) as [->|Hkk].
  - unfold is_transaction in Hr. by rewrite Hr.
  - rewrite (transaction_other_kind k k' r Hr Hkk). apply orb_true_r.
Qed.

Lemma array_of_hashes_checked (xs : list pyvalue) (k : tx_kind) :
  Forall (is_transaction k) xs →
  is_ok (validate_array (VList xs) validate_32_byte_string)
  || is_validation_error (validate_array (VList xs) validate_32_byte_string) = true.
Proof.
  intros Hall. apply validate_array_checked. eapply Forall_impl; [exact Hall|].
  intros r Hr. simpl. rewrite (transaction_not_hash k r Hr). apply orb_true_r.
Qed.

Lemma block_transactions_accept_kind (xs : list pyvalue) (k : tx_kind) :
  k ≠ SetCode → Forall (is_transaction k) xs →
  field_validator BLOCK_VALIDATORS "transactions" (VList xs) = Ok VNone.
Proof.
  intros Hk Hall. rewrite block_transactions_unfold.
  assert (is_ok (validate_array (VList xs) (λ r, validate_dict r (tx_table k))) = true)
    as Hok.
  { cut (validate_array (VList xs) (λ r, validate_dict r (tx_table k)) = Ok VNone);
      [by intros ->|].
    apply validate_array_ok. eapply Forall_impl; [exact Hall|].
    intros r Hr. unfold is_transaction in Hr. by rewrite Hr. }
  apply validate_any_some.
  - destruct k; [| | | |done].
    + apply Exists_cons_tl, Exists_cons_hd, Hok.
    + do 2 apply Exists_cons_tl. apply Exists_cons_hd, Hok.
    + do 3 apply Exists_cons_tl. apply Exists_cons_hd, Hok.
    + do 4 apply Exists_cons_tl. apply Exists_cons_hd, Hok.
  - repeat constructor;
      [by apply array_of_hashes_checked with k | by apply array_of_kind_checked with k ..].
Qed.

(** The fifth kind is not among them. *)
Lemma block_transactions_refuse_set_code (xs : list pyvalue) (r : pyvalue) :
  Forall (is_transaction SetCode) (r :: xs) →
  is_validation_error
    (field_validator BLOCK_VALIDATORS "transactions" (VList (r :: xs))) = true.
Proof.
  intros Hall. rewrite block_transactions_unfold.
  pose proof (Forall_inv Hall) as Hr.
  assert (∀ f : validator,
             is_validation_error (f r) = true →
             is_ok (validate_array (VList (r :: xs)) f)
             || is_validation_error (validate_array (VList (r :: xs)) f) = true →
             is_validation_error (validate_array (VList (r :: xs)) f) = true) as Hstep.
  { intros f Hf Hc.
    rewrite (validate_array_fails (r :: xs) f r) in Hc;
      [done | apply list_elem_of_here | by apply is_validation_error_not_ok]. }
  apply validate_any_all_refuse. repeat constructor.
  - apply Hstep; [by apply transaction_not_hash with SetCode
                 |by apply array_of_hashes_checked with SetCode].
  - apply Hstep; [by apply (transaction_other_kind SetCode Legacy)
                 |by apply array_of_kind_checked with SetCode].
  - apply Hstep; [by apply (transaction_other_kind SetCode AccessList)
                 |by apply array_of_kind_checked with SetCode].
  - apply Hstep; [by apply (transaction_other_kind SetCode DynamicFee)
                 |by apply array_of_kind_checked with SetCode].
  - apply Hstep; [by apply (transaction_other_kind SetCode Blob)
                 |by apply array_of_kind_checked with SetCode].
Qed.

(** ** The fork-field resolver *)

Lemma writes_only_refl ks s : writes_only ks s s.
Proof. by split_and!. Qed.

Lemma writes_only_trans ks s1 s2 s3 :
  writes_only ks s1 s2 → writes_only ks s2 s3 → writes_only ks s1 s3.
Proof.
  intros (Ha & Hb & Hc) (Ha' & Hb' & Hc'). split_and!.
  - intros Hd. rewrite Ha' by (rewrite Ha; done). by apply Ha.
  - congruence.
  - intros k Hk. rewrite Hc', Hc; done.
Qed.

Lemma writes_only_mono ks ks' s s' :
  ks ⊆ ks' → writes_only ks s s' → writes_only ks' s s'.
Proof.
  intros Hsub (Ha & Hb & Hc). split_and!; [done..|].
  intros k Hk. apply Hc. intros (k0 & -> & Hin)%list_elem_of_fmap.
  apply Hk, list_elem_of_fmap. exists k0. split; [done|]. by apply Hsub.
Qed.

Lemma writes_only_insert (d : gmap key pyvalue) (k : string) (v : pyvalue) ks :
  k ∈ ks → writes_only ks (VDict d) (VDict (<[KStr k := v]> d)).
Proof.
  intros Hin. split_and!; [done..|]. intros k' Hk'. simpl.
  apply lookup_insert_ne. intros <-. apply Hk', list_elem_of_fmap. eauto.
Qed.

Lemma set_null_other (ks : list string) (d : gmap key pyvalue) (k : key) :
  k ∉ KStr <$> ks → set_null ks d !! k = d !! k.
Proof.
  revert d. induction ks as [|k0 ks IH]; intros d Hk; [done|].
  rewrite fmap_cons, not_elem_of_cons in Hk. destruct Hk as [Hne Hk].
  unfold set_null in *. simpl. rewrite IH by done. by apply lookup_insert_ne.
Qed.

Lemma set_null_in (ks : list string) (d : gmap key pyvalue) (k : string) :
  k ∈ ks → set_null ks d !! KStr k = Some VNone.
Proof.
  revert d. induction ks as [|k0 ks IH]; intros d Hk; [by apply elem_of_nil in Hk|].
  unfold set_null in *. simpl. destruct (decide (k ∈ ks)) as [Hin|Hin]; [by apply IH|].
  apply elem_of_cons in Hk as [->|Hk]; [|done].
  fold (set_null ks (<[KStr k0 := VNone]> d)). rewrite set_null_other.
  - apply lookup_insert_eq.
  - intros (k' & [= <-] & Hk')%list_elem_of_fmap. done.
Qed.

Lemma stage_writes_only p check ks s : writes_only ks s (stage p check ks s).2.
Proof.
  unfold stage. destruct (p s); [apply writes_only_refl|].
  destruct s; try apply writes_only_refl.
  split_and!; [done..|]. intros k Hk. by apply set_null_other.
Qed.

Lemma stage_true p check ks s : p s = true → stage p check ks s = (check s, s).
Proof. unfold stage. by intros ->. Qed.

Lemma stage_false p check ks s s' :
  p s = false → stage p check ks s = (Ok (), s') →
  ∀ k, k ∈ ks → item s' (KStr k) = Some VNone.
Proof.
  unfold stage. intros ->. destruct s; try discriminate.
  intros [= <-] k Hk. by apply set_null_in.
Qed.

Section ForkFieldsProperties.
Context `{ForkRules}.

(** *** The stages, run *)

Lemma london_stage_run (s : pyvalue) :
  london_stage s =
    if is_london_block s then
      ((x ← Py.getitem s (KStr "base_fee_per_gas");
        _ ← validate_positive_integer x; Ok ()), s)
    else
      match s with
      | VDict d => (Ok (), VDict (<[KStr "base_fee_per_gas" := VNone]> d))
      | _ => (Raise TypeError, s)
      end.
Proof.
  unfold london_stage, mbind, M_bind, outcome_bind, Mem.test, Mem.getitem,
    Mem.lift, Mem.setitem, mret, M_ret.
  destruct (is_london_block s); [|done].
  destruct (Py.getitem s _) as [x|]; [|done].
  by destruct (validate_positive_integer x).
Qed.

Lemma shanghai_stage_run (s : pyvalue) :
  shanghai_stage s =
    if is_shanghai_block s then
      ((x ← Py.getitem s (KStr "withdrawals");
        _ ← validate_array x validate_withdrawal;
        x ← Py.getitem s (KStr "withdrawals_root");
        _ ← validate_32_byte_string x; Ok ()), s)
    else
      match s with
      | VDict d =>
          (Ok (), VDict (<[KStr "withdrawals_root" := VNone]>
                           (<[KStr "withdrawals" := VNone]> d)))
      | _ => (Raise TypeError, s)
      end.
Proof.
  unfold shanghai_stage, mbind, M_bind, outcome_bind, Mem.test, Mem.getitem,
    Mem.lift, Mem.setitem, mret, M_ret.
  destruct (is_shanghai_block s); [|by destruct s].
  destruct (Py.getitem s "withdrawals") as [x|]; [|done].
  destruct (validate_array x validate_withdrawal); [|done].
  destruct (Py.getitem s "withdrawals_root") as [y|]; [|done].
  by destruct (validate_32_byte_string y).
Qed.

Lemma cancun_stage_run (s : pyvalue) :
  cancun_stage s =
    if is_cancun_block s then
      ((x ← Py.getitem s (KStr "parent_beacon_block_root");
        _ ← validate_32_byte_string x;
        x ← Py.getitem s (KStr "blob_gas_used");
        _ ← validate_positive_integer x;
        x ← Py.getitem s (KStr "excess_blob_gas");
        _ ← validate_positive_integer x; Ok ()), s)
    else
      match s with
      | VDict d =>
          (Ok (), VDict (<[KStr "excess_blob_gas" := VNone]>
                           (<[KStr "blob_gas_used" := VNone]>
                              (<[KStr "parent_beacon_block_root" := VNone]> d))))
      | _ => (Raise TypeError, s)
      end.
Proof.
  unfold cancun_stage, mbind, M_bind, outcome_bind, Mem.test, Mem.getitem,
    Mem.lift, Mem.setitem, mret, M_ret.
  destruct (is_cancun_block s); [|by destruct s].
  destruct (Py.getitem s "parent_beacon_block_root") as [x|]; [|done].
  destruct (validate_32_byte_string x); [|done].
  destruct (Py.getitem s "blob_gas_used") as [y|]; [|done].
  destruct (validate_positive_integer y); [|done].
  destruct (Py.getitem s "excess_blob_gas") as [z|]; [|done].
  by destruct (validate_positive_integer z).
Qed.

Lemma prague_stage_run (s : pyvalue) :
  prague_stage s =
    if is_prague_block s then
      ((x ← Py.getitem s (KStr "requests_hash");
        _ ← validate_32_byte_string x; Ok ()), s)
    else
      match s with
      | VDict d => (Ok (), VDict (<[KStr "requests_hash" := VNone]> d))
      | _ => (Raise TypeError, s)
      end.
Proof.
  unfold prague_stage, mbind, M_bind, outcome_bind, Mem.test, Mem.getitem,
    Mem.lift, Mem.setitem, mret, M_ret.
  destruct (is_prague_block s); [|done].
  destruct (Py.getitem s _) as [x|]; [|done].
  by destruct (validate_32_byte_string x).
Qed.

(** *** The stages as instances of one shape *)

Lemma london_stage_shape (s : pyvalue) :
  london_stage s = stage is_london_block london_check LONDON_FIELDS s.
Proof. apply london_stage_run. Qed.

Lemma shanghai_stage_shape (s : pyvalue) :
  shanghai_stage s = stage is_shanghai_block shanghai_check SHANGHAI_FIELDS s.
Proof. apply shanghai_stage_run. Qed.

Lemma cancun_stage_shape (s : pyvalue) :
  cancun_stage s = stage is_cancun_block cancun_check CANCUN_FIELDS s.
Proof. apply cancun_stage_run. Qed.

Lemma prague_stage_shape (s : pyvalue) :
  prague_stage s = stage is_prague_block prague_check PRAGUE_FIELDS s.
Proof. apply prague_stage_run. Qed.

Lemma resolver_run (s : pyvalue) :
  _validate_fork_specific_fields s =
    match london_stage s with
    | (Raise e, s1) => (Raise e, s1)
    | (Ok _, s1) =>
        match shanghai_stage s1 with
        | (Raise e, s2) => (Raise e, s2)
        | (Ok _, s2) =>
            match cancun_stage s2 with
            | (Raise e, s3) => (Raise e, s3)
            | (Ok _, s3) =>
                match prague_stage s3 with
                | (Raise e, s4) => (Raise e, s4)
                | (Ok _, s4) => (Ok Arg, s4)
                end
            end
        end
    end.
Proof.
  unfold _validate_fork_specific_fields, mbind, M_bind, mret, M_ret.
  destruct (london_stage s) as [[[]|] s1]; [|done].
  destruct (shanghai_stage s1) as [[[]|] s2]; [|done].
  destruct (cancun_stage s2) as [[[]|] s3]; [|done].
  by destruct (prague_stage s3) as [[[]|] s4].
Qed.

Lemma resolver_ok (s s' : pyvalue) (r : obj) :
  _validate_fork_specific_fields s = (Ok r, s') →
  r = Arg
  ∧ london_stage s = (Ok (), after_london s)
  ∧ shanghai_stage (after_london s) = (Ok (), after_shanghai s)
  ∧ cancun_stage (after_shanghai s) = (Ok (), after_cancun s)
  ∧ prague_stage (after_cancun s) = (Ok (), s').
Proof.
  rewrite resolver_run. unfold after_cancun, after_shanghai, after_london.
  destruct (london_stage s) as [[[]|] s1]; [|discriminate]. simpl.
  destruct (shanghai_stage s1) as [[[]|] s2]; [|discriminate]. simpl.
  destruct (cancun_stage s2) as [[[]|] s3]; [|discriminate]. simpl.
  destruct (prague_stage s3) as [[[]|] s4]; [|discriminate].
  by intros [= <- <-].
Qed.

Lemma london_writes s : writes_only LONDON_FIELDS s (after_london s).
Proof. unfold after_london. rewrite london_stage_shape. apply stage_writes_only. Qed.

Lemma shanghai_writes s : writes_only SHANGHAI_FIELDS s (shanghai_stage s).2.
Proof. rewrite shanghai_stage_shape. apply stage_writes_only. Qed.

Lemma cancun_writes s : writes_only CANCUN_FIELDS s (cancun_stage s).2.
Proof. rewrite cancun_stage_shape. apply stage_writes_only. Qed.

Lemma prague_writes s : writes_only PRAGUE_FIELDS s (prague_stage s).2.
Proof. rewrite prague_stage_shape. apply stage_writes_only. Qed.

(** Whatever the resolver does, and whether it returns or raises, it
    writes under the seven names only. *)
Lemma resolver_writes (s : pyvalue) :
  writes_only FORK_FIELDS s (_validate_fork_specific_fields s).2.
Proof.
  assert (∀ ks, ks ⊆ FORK_FIELDS → ∀ a b, writes_only ks a b → writes_only FORK_FIELDS a b)
    as Hmono by (intros ks Hks a b; by apply writes_only_mono).
  assert (LONDON_FIELDS ⊆ FORK_FIELDS ∧ SHANGHAI_FIELDS ⊆ FORK_FIELDS
          ∧ CANCUN_FIELDS ⊆ FORK_FIELDS ∧ PRAGUE_FIELDS ⊆ FORK_FIELDS)
    as (Hl & Hs & Hc & Hp).
  { unfold LONDON_FIELDS, SHANGHAI_FIELDS, CANCUN_FIELDS, PRAGUE_FIELDS, FORK_FIELDS.
    split_and!; set_solver. }
  rewrite resolver_run.
  pose proof (Hmono _ Hl _ _ (london_writes s)) as H1. unfold after_london in H1.
  destruct (london_stage s) as [[[]|] s1]; [|exact H1]. simpl in H1.
  pose proof (Hmono _ Hs _ _ (shanghai_writes s1)) as H2.
  destruct (shanghai_stage s1) as [[[]|] s2]; simpl in H2;
    [|by apply writes_only_trans with s1].
  pose proof (Hmono _ Hc _ _ (cancun_writes s2)) as H3.
  destruct (cancun_stage s2) as [[[]|] s3]; simpl in H3;
    [|by apply writes_only_trans with s2; [apply writes_only_trans with s1|]].
  pose proof (Hmono _ Hp _ _ (prague_writes s3)) as H4.
  destruct (prague_stage s3) as [[[]|] s4]; simpl in H4;
    apply writes_only_trans with s3; try done;
    apply writes_only_trans with s2; try done;
    by apply writes_only_trans with s1.
Qed.

Lemma keep_item (ks : list string) (a b : pyvalue) (k : string) :
  writes_only ks a b → k ∉ ks → item b (KStr k) = item a (KStr k).
Proof.
  intros (_ & _ & Hw) Hk. apply Hw.
  intros (k' & [= <-] & Hin)%list_elem_of_fmap. done.
Qed.

Lemma validate_block_run (s : pyvalue) :
  validate_block s =
    match _validate_fork_specific_fields s with
    | (Ok r, s') =>
        (Imm <$> validate_dict (match r with Arg => s' | Imm v => v end) BLOCK_VALIDATORS,
         s')
    | (Raise e, s') => (Raise e, s')
    end.
Proof.
  unfold validate_block, mbind, M_bind, mret, M_ret, Mem.deref, Mem.lift.
  destruct (_validate_fork_specific_fields s) as [[r|e] s']; [|done].
  by destruct (validate_dict _ BLOCK_VALIDATORS).
Qed.

Lemma validate_block_state (s : pyvalue) :
  (validate_block s).2 = (_validate_fork_specific_fields s).2.
Proof.
  rewrite validate_block_run.
  by destruct (_validate_fork_specific_fields s) as [[r|e] s'].
Qed.

Lemma validate_dict_returns_none (v : pyvalue) (t : table) (r : pyvalue) :
  validate_dict v t = Ok r → r = VNone.
Proof.
  destruct v; try discriminate. by intros (-> & _)%validate_dict_ok.
Qed.

(** *** What validation writes *)

(** C9: a validator called as an entry point ([validate_transaction],
    [validate_receipt], [validate_withdrawal], [validate_accounts], any
    field validator) leaves the object it was called with as it was;
    [validate_block], whether it returns or raises, leaves an object that
    is not a dictionary as it was, and changes of a dictionary at most
    what is stored under the seven fork-specific names. *)
Theorem validation_writes_fork_fields_only (s : pyvalue) :
  (Mem.call validate_transaction s).2 = s
  ∧ (Mem.call validate_receipt s).2 = s
  ∧ (Mem.call validate_withdrawal s).2 = s
  ∧ (Mem.call validate_accounts s).2 = s
  ∧ (∀ f : validator, (Mem.call f s).2 = s)
  ∧ writes_only FORK_FIELDS s (validate_block s).2.
Proof.
  assert (∀ f : validator, (Mem.call f s).2 = s) as Hcall.
  { intros f. unfold Mem.call, mbind, M_bind, mret, M_ret, Mem.deref, Mem.lift.
    by destruct (f s). }
  split_and!; try apply Hcall.
  rewrite validate_block_state. apply resolver_writes.
Qed.

(** *** What [validate_block] returns *)

(** C2, as amended: when [validate_block] returns, it returns [None], not
    the block: the resolver has returned the object it was given, with its
    writes made in place, and the dictionary validator has accepted that
    object; when it raises, either the resolver has raised or the
    dictionary validator has, and the writes made until then stay. *)
Theorem validate_block_returns_none (s : pyvalue) :
  match validate_block s with
  | (Ok r, s') =>
      r = Imm VNone
      ∧ _validate_fork_specific_fields s = (Ok Arg, s')
      ∧ validate_dict s' BLOCK_VALIDATORS = Ok VNone
  | (Raise e, s') =>
      _validate_fork_specific_fields s = (Raise e, s')
      ∨ (_validate_fork_specific_fields s = (Ok Arg, s')
         ∧ validate_dict s' BLOCK_VALIDATORS = Raise e)
  end.
Proof.
  rewrite validate_block_run.
  destruct (_validate_fork_specific_fields s) as [[r|e] s'] eqn:Hres; [|by left].
  apply resolver_ok in Hres as Hr. destruct Hr as [-> _].
  destruct (validate_dict s' BLOCK_VALIDATORS) as [v|e] eqn:Hd; simpl.
  - apply validate_dict_returns_none in Hd as Hv. subst v. done.
  - right. done.
Qed.

(** *** What the resolver leaves under the fork-specific names *)

Lemma fork_fields_disjoint (k : string) :
  (k ∈ LONDON_FIELDS →
     (k ∉ SHANGHAI_FIELDS) ∧ (k ∉ CANCUN_FIELDS) ∧ (k ∉ PRAGUE_FIELDS))
  ∧ (k ∈ SHANGHAI_FIELDS →
       (k ∉ LONDON_FIELDS) ∧ (k ∉ CANCUN_FIELDS) ∧ (k ∉ PRAGUE_FIELDS))
  ∧ (k ∈ CANCUN_FIELDS →
       (k ∉ LONDON_FIELDS) ∧ (k ∉ SHANGHAI_FIELDS) ∧ (k ∉ PRAGUE_FIELDS))
  ∧ (k ∈ PRAGUE_FIELDS →
       (k ∉ LONDON_FIELDS) ∧ (k ∉ SHANGHAI_FIELDS) ∧ (k ∉ CANCUN_FIELDS)).
Proof.
  split_and!; intros Hk;
    repeat (apply elem_of_cons in Hk as [->|Hk]);
    try (by apply elem_of_nil in Hk); split_and!; compute_done.
Qed.

(** One stage of the pipeline, seen from its outcome. *)
Lemma stage_outcome p check ks (a b : pyvalue) :
  stage p check ks a = (Ok (), b) →
  if p a then check a = Ok () ∧ b = a
  else ∀ k, k ∈ ks → item b (KStr k) = Some VNone.
Proof.
  intros Hst. destruct (p a) eqn:Hp.
  - rewrite stage_true in Hst by done. by injection Hst as -> ->.
  - by apply stage_false with p check a.
Qed.

(** The four stages of a run of the resolver that returns. *)
Lemma resolver_stages (s s' : pyvalue) (r : obj) :
  _validate_fork_specific_fields s = (Ok r, s') →
  r = Arg
  ∧ writes_only LONDON_FIELDS s (after_london s)
  ∧ writes_only SHANGHAI_FIELDS (after_london s) (after_shanghai s)
  ∧ writes_only CANCUN_FIELDS (after_shanghai s) (after_cancun s)
  ∧ writes_only PRAGUE_FIELDS (after_cancun s) s'
  ∧ (if is_london_block s
     then london_check s = Ok () ∧ after_london s = s
     else ∀ k, k ∈ LONDON_FIELDS → item (after_london s) (KStr k) = Some VNone)
  ∧ (if is_shanghai_block (after_london s)
     then shanghai_check (after_london s) = Ok () ∧ after_shanghai s = after_london s
     else ∀ k, k ∈ SHANGHAI_FIELDS → item (after_shanghai s) (KStr k) = Some VNone)
  ∧ (if is_cancun_block (after_shanghai s)
     then cancun_check (after_shanghai s) = Ok () ∧ after_cancun s = after_shanghai s
     else ∀ k, k ∈ CANCUN_FIELDS → item (after_cancun s) (KStr k) = Some VNone)
  ∧ (if is_prague_block (after_cancun s)
     then prague_check (after_cancun s) = Ok () ∧ s' = after_cancun s
     else ∀ k, k ∈ PRAGUE_FIELDS → item s' (KStr k) = Some VNone).
Proof.
  intros Hrun. apply resolver_ok in Hrun as (-> & Hl & Hs & Hc & Hp).
  pose proof (london_writes s) as W1.
  pose proof (shanghai_writes (after_london s)) as W2.
  pose proof (cancun_writes (after_shanghai s)) as W3.
  pose proof (prague_writes (after_cancun s)) as W4.
  rewrite Hp in W4. simpl in W4.
  fold (after_shanghai s) in W2. fold (after_cancun s) in W3.
  rewrite london_stage_shape in Hl. apply stage_outcome in Hl.
  rewrite shanghai_stage_shape in Hs. apply stage_outcome in Hs.
  rewrite cancun_stage_shape in Hc. apply stage_outcome in Hc.
  rewrite prague_stage_shape in Hp. apply stage_outcome in Hp.
  done.
Qed.

(** What a run that returns leaves under the names of a stage is what
    that stage left there; what a stage finds under its names is what the
    block held on entry. *)
Lemma resolver_keeps (s s' : pyvalue) (r : obj) :
  _validate_fork_specific_fields s = (Ok r, s') →
  (∀ k, k ∈ LONDON_FIELDS → item s' (KStr k) = item (after_london s) (KStr k))
  ∧ (∀ k, k ∈ SHANGHAI_FIELDS →
       item s' (KStr k) = item (after_shanghai s) (KStr k)
       ∧ item (after_london s) (KStr k) = item s (KStr k))
  ∧ (∀ k, k ∈ CANCUN_FIELDS →
       item s' (KStr k) = item (after_cancun s) (KStr k)
       ∧ item (after_shanghai s) (KStr k) = item s (KStr k))
  ∧ (∀ k, k ∈ PRAGUE_FIELDS → item (after_cancun s) (KStr k) = item s (KStr k)).
Proof.
  intros Hrun.
  apply resolver_stages in Hrun as (_ & W1 & W2 & W3 & W4 & _).
  split_and!; intros k Hk.
  - destruct (fork_fields_disjoint k) as (Hd & _). destruct (Hd Hk) as (D2 & D3 & D4).
    by rewrite (keep_item _ _ _ k W4 D4), (keep_item _ _ _ k W3 D3),
      (keep_item _ _ _ k W2 D2).
  - destruct (fork_fields_disjoint k) as (_ & Hd & _).
    destruct (Hd Hk) as (D1 & D3 & D4). split.
    + by rewrite (keep_item _ _ _ k W4 D4), (keep_item _ _ _ k W3 D3).
    + apply (keep_item _ _ _ k W1 D1).
  - destruct (fork_fields_disjoint k) as (_ & _ & Hd & _).
    destruct (Hd Hk) as (D1 & D2 & D4). split.
    + by rewrite (keep_item _ _ _ k W4 D4).
    + rewrite (keep_item _ _ _ k W2 D2). apply (keep_item _ _ _ k W1 D1).
  - destruct (fork_fields_disjoint k) as (_ & _ & _ & Hd).
    destruct (Hd Hk) as (D1 & D2 & D3).
    rewrite (keep_item _ _ _ k W3 D3), (keep_item _ _ _ k W2 D2).
    apply (keep_item _ _ _ k W1 D1).
Qed.

(** C10: when [_validate_fork_specific_fields] returns, each stage whose
    predicate was false, on the object as that stage found it, has left
    [None] under each of its names, whatever was stored there on entry;
    each stage whose predicate was true has left under its names what was
    stored there on entry. *)
Theorem resolver_nulls_pre_fork_fields (s s' : pyvalue) (r : obj) :
  _validate_fork_specific_fields s = (Ok r, s') →
  (∀ k, k ∈ LONDON_FIELDS →
     item s' (KStr k) = if is_london_block s then item s (KStr k) else Some VNone)
  ∧ (∀ k, k ∈ SHANGHAI_FIELDS →
       item s' (KStr k) =
         if is_shanghai_block (after_london s) then item s (KStr k) else Some VNone)
  ∧ (∀ k, k ∈ CANCUN_FIELDS →
       item s' (KStr k) =
         if is_cancun_block (after_shanghai s) then item s (KStr k) else Some VNone)
  ∧ (∀ k, k ∈ PRAGUE_FIELDS →
       item s' (KStr k) =
         if is_prague_block (after_cancun s) then item s (KStr k) else Some VNone).
Proof.
  intros Hrun.
  pose proof (resolver_keeps _ _ _ Hrun) as (K1 & K2 & K3 & K4).
  apply resolver_stages in Hrun as (_ & _ & _ & _ & _ & Hl & Hs & Hc & Hp).
  split_and!; intros k Hk.
  - rewrite (K1 k Hk).
    destruct (is_london_block s); [by destruct Hl as [_ ->] | by apply Hl].
  - destruct (K2 k Hk) as [-> Hbefore].
    destruct (is_shanghai_block (after_london s)); [|by apply Hs].
    destruct Hs as [_ ->]. exact Hbefore.
  - destruct (K3 k Hk) as [-> Hbefore].
    destruct (is_cancun_block (after_shanghai s)); [|by apply Hc].
    destruct Hc as [_ ->]. exact Hbefore.
  - destruct (is_prague_block (after_cancun s)); [|by apply Hp].
    destruct Hp as [_ ->]. by apply K4.
Qed.

Lemma getitem_item (a : pyvalue) (k : string) (x : pyvalue) :
  Py.getitem a (KStr k) = Ok x → item a (KStr k) = Some x.
Proof.
  destruct a; try discriminate. simpl.
  destruct (d !! KStr k); [by intros [= ->] | discriminate].
Qed.

Lemma london_check_present (a : pyvalue) (k : string) :
  london_check a = Ok () → k ∈ LONDON_FIELDS → is_Some (item a (KStr k)).
Proof.
  unfold london_check, mbind, outcome_bind. intros Hc Hk.
  destruct (Py.getitem a "base_fee_per_gas") as [x|] eqn:H1; [|discriminate].
  apply getitem_item in H1.
  repeat (apply elem_of_cons in Hk as [->|Hk]); [eauto|by apply elem_of_nil in Hk].
Qed.

Lemma shanghai_check_present (a : pyvalue) (k : string) :
  shanghai_check a = Ok () → k ∈ SHANGHAI_FIELDS → is_Some (item a (KStr k)).
Proof.
  unfold shanghai_check, mbind, outcome_bind. intros Hc Hk.
  destruct (Py.getitem a "withdrawals") as [x|] eqn:H1; [|discriminate].
  destruct (validate_array x validate_withdrawal); [|discriminate].
  destruct (Py.getitem a "withdrawals_root") as [y|] eqn:H2; [|discriminate].
  apply getitem_item in H1, H2.
  repeat (apply elem_of_cons in Hk as [->|Hk]); [eauto..|by apply elem_of_nil in Hk].
Qed.

Lemma cancun_check_present (a : pyvalue) (k : string) :
  cancun_check a = Ok () → k ∈ CANCUN_FIELDS → is_Some (item a (KStr k)).
Proof.
  unfold cancun_check, mbind, outcome_bind. intros Hc Hk.
  destruct (Py.getitem a "parent_beacon_block_root") as [x|] eqn:H1; [|discriminate].
  destruct (validate_32_byte_string x); [|discriminate].
  destruct (Py.getitem a "blob_gas_used") as [y|] eqn:H2; [|discriminate].
  destruct (validate_positive_integer y); [|discriminate].
  destruct (Py.getitem a "excess_blob_gas") as [z|] eqn:H3; [|discriminate].
  apply getitem_item in H1, H2, H3.
  repeat (apply elem_of_cons in Hk as [->|Hk]); [eauto..|by apply elem_of_nil in Hk].
Qed.

Lemma prague_check_present (a : pyvalue) (k : string) :
  prague_check a = Ok () → k ∈ PRAGUE_FIELDS → is_Some (item a (KStr k)).
Proof.
  unfold prague_check, mbind, outcome_bind. intros Hc Hk.
  destruct (Py.getitem a "requests_hash") as [x|] eqn:H1; [|discriminate].
  apply getitem_item in H1.
  repeat (apply elem_of_cons in Hk as [->|Hk]); [eauto|by apply elem_of_nil in Hk].
Qed.

(** When the resolver returns, the object holds something under each of
    the seven names. *)
Lemma resolver_present (s s' : pyvalue) (r : obj) (k : string) :
  _validate_fork_specific_fields s = (Ok r, s') →
  k ∈ FORK_FIELDS → is_Some (item s' (KStr k)).
Proof.
  intros Hrun Hk.
  apply resolver_stages in Hrun as (_ & W1 & W2 & W3 & W4 & Hl & Hs & Hc & Hp).
  change FORK_FIELDS
    with (LONDON_FIELDS ++ SHANGHAI_FIELDS ++ CANCUN_FIELDS ++ PRAGUE_FIELDS)%list in Hk.
  rewrite !elem_of_app in Hk. destruct Hk as [Hk|[Hk|[Hk|Hk]]].
  - destruct (fork_fields_disjoint k) as (Hd & _). destruct (Hd Hk) as (D2 & D3 & D4).
    rewrite (keep_item _ _ _ k W4 D4), (keep_item _ _ _ k W3 D3),
      (keep_item _ _ _ k W2 D2).
    destruct (is_london_block s); [|rewrite Hl; eauto].
    destruct Hl as [Hchk ->]. by apply london_check_present.
  - destruct (fork_fields_disjoint k) as (_ & Hd & _).
    destruct (Hd Hk) as (D1 & D3 & D4).
    rewrite (keep_item _ _ _ k W4 D4), (keep_item _ _ _ k W3 D3).
    destruct (is_shanghai_block (after_london s)); [|rewrite Hs; eauto].
    destruct Hs as [Hchk ->]. by apply shanghai_check_present.
  - destruct (fork_fields_disjoint k) as (_ & _ & Hd & _).
    destruct (Hd Hk) as (D1 & D2 & D4).
    rewrite (keep_item _ _ _ k W4 D4).
    destruct (is_cancun_block (after_shanghai s)); [|rewrite Hc; eauto].
    destruct Hc as [Hchk ->]. by apply cancun_check_present.
  - destruct (is_prague_block (after_cancun s)); [|rewrite Hp; eauto].
    destruct Hp as [Hchk ->]. by apply prague_check_present.
Qed.

(** The table leaves the seven names to the resolver: their validator is
    [identity]. *)
Lemma fork_fields_unchecked :
  Forall (λ kf : string * validator,
            kf.1 ∈ FORK_FIELDS → ∀ x, is_ok (kf.2 x) = true) BLOCK_VALIDATORS.
Proof.
  unfold BLOCK_VALIDATORS.
  repeat constructor; simpl; intros Hin;
    first [by intros x | exfalso; revert Hin; compute_done].
Qed.

Lemma fork_fields_in_table (k : string) :
  k ∈ FORK_FIELDS → KStr k ∈ key_set BLOCK_VALIDATORS.
Proof.
  intros Hk. repeat (apply elem_of_cons in Hk as [->|Hk]);
    [compute_done..|by apply elem_of_nil in Hk].
Qed.

(** With every predicate false the resolver returns, whatever the
    dictionary holds. *)
Lemma resolver_returns_pre_london (d : gmap key pyvalue) :
  is_london_block (VDict d) = false →
  is_shanghai_block (VDict (set_null LONDON_FIELDS d)) = false →
  is_cancun_block (VDict (set_null (LONDON_FIELDS ++ SHANGHAI_FIELDS) d)) = false →
  is_prague_block
    (VDict (set_null (LONDON_FIELDS ++ SHANGHAI_FIELDS ++ CANCUN_FIELDS) d)) = false →
  _validate_fork_specific_fields (VDict d) = (Ok Arg, VDict (set_null FORK_FIELDS d)).
Proof.
  intros Hl Hs Hc Hp. rewrite resolver_run.
  rewrite london_stage_shape. unfold stage at 1. rewrite Hl.
  rewrite shanghai_stage_shape. unfold stage at 1. rewrite Hs.
  rewrite cancun_stage_shape. unfold stage at 1.
  change (set_null SHANGHAI_FIELDS (set_null LONDON_FIELDS d))
    with (set_null (LONDON_FIELDS ++ SHANGHAI_FIELDS) d).
  rewrite Hc.
  rewrite prague_stage_shape. unfold stage at 1.
  change (set_null CANCUN_FIELDS (set_null (LONDON_FIELDS ++ SHANGHAI_FIELDS) d))
    with (set_null (LONDON_FIELDS ++ SHANGHAI_FIELDS ++ CANCUN_FIELDS) d).
  rewrite Hp. reflexivity.
Qed.

(** When the resolver has returned, the dictionary validator accepts the
    object provided the block held no name the table lacks and, under
    every name the resolver does not look after, a value the table's
    validator accepts. *)
Lemma resolved_block_accepted (b : gmap key pyvalue) (s' : pyvalue) (r : obj) :
  dom b ⊆ key_set BLOCK_VALIDATORS →
  Forall (λ kf : string * validator,
            kf.1 ∈ FORK_FIELDS
            ∨ ∃ x, b !! KStr kf.1 = Some x ∧ is_ok (kf.2 x) = true)
         BLOCK_VALIDATORS →
  _validate_fork_specific_fields (VDict b) = (Ok r, s') →
  validate_dict s' BLOCK_VALIDATORS = Ok VNone.
Proof.
  intros Hsub Hvalid Hrun.
  pose proof (resolver_writes (VDict b)) as (_ & Hd & Hw).
  rewrite Hrun in Hd, Hw. cbn [snd] in Hd, Hw.
  destruct s' as [| | | | | | |d']; try discriminate. cbn [item] in Hw.
  assert (∀ k : string, k ∈ FORK_FIELDS → is_Some (d' !! KStr k)) as Hpres.
  { intros k Hk. by apply (resolver_present _ _ _ k Hrun). }
  assert (∀ k : string, k ∉ FORK_FIELDS → d' !! KStr k = b !! KStr k) as Hkeep.
  { intros k Hk. apply Hw. intros (k' & [= <-] & Hin)%list_elem_of_fmap. done. }
  apply validate_dict_ok. split_and!; [done| |].
  - apply set_eq. intros k. rewrite elem_of_dom. split.
    + intros Hin. destruct (decide (k ∈ KStr <$> FORK_FIELDS)) as [Hf|Hf].
      * apply list_elem_of_fmap in Hf as (k0 & -> & Hk0).
        by apply fork_fields_in_table.
      * rewrite Hw in Hin by done. apply Hsub. by apply elem_of_dom.
    + unfold key_set, keys. rewrite elem_of_list_to_set.
      intros (k0 & -> & Hk0)%list_elem_of_fmap.
      apply list_elem_of_fmap in Hk0 as (kf & -> & Hkf).
      destruct (decide (kf.1 ∈ FORK_FIELDS)) as [Hf|Hf]; [by apply Hpres|].
      rewrite Hkeep by done. rewrite Forall_forall in Hvalid.
      destruct (Hvalid kf Hkf) as [?|(x & -> & _)]; [done | eauto].
  - apply Forall_forall. intros kf Hkf.
    destruct (decide (kf.1 ∈ FORK_FIELDS)) as [Hf|Hf].
    + destruct (Hpres _ Hf) as [x Hx]. exists x. split; [done|].
      pose proof fork_fields_unchecked as Hid. rewrite Forall_forall in Hid.
      by apply (Hid kf Hkf).
    + rewrite Hkeep by done. rewrite Forall_forall in Hvalid.
      destruct (Hvalid kf Hkf) as [?|Hx]; [done | exact Hx].
Qed.

(** C7: take a block whose London predicate holds and whose Shanghai
    predicate does not, with no name the table lacks and with valid values
    under the names that are not fork-specific.  When the resolver
    returns, [base_fee_per_gas] holds an integer that is not negative,
    [withdrawals] and [withdrawals_root] hold [None], and the dictionary
    validator accepts the block, so [validate_block] returns.  And the
    resolver does return when the base fee is such an integer and the two
    later predicates do not hold either. *)
Theorem london_block_passes (b : gmap key pyvalue) :
  is_london_block (VDict b) = true →
  is_shanghai_block (VDict b) = false →
  dom b ⊆ key_set BLOCK_VALIDATORS →
  Forall (λ kf : string * validator,
            kf.1 ∈ FORK_FIELDS
            ∨ ∃ x, b !! KStr kf.1 = Some x ∧ is_ok (kf.2 x) = true)
         BLOCK_VALIDATORS →
  (∀ r s', _validate_fork_specific_fields (VDict b) = (Ok r, s') →
     (∃ n, item s' (KStr "base_fee_per_gas") = Some (VInt n) ∧ 0 ≤ n)
     ∧ item s' (KStr "withdrawals") = Some VNone
     ∧ item s' (KStr "withdrawals_root") = Some VNone
     ∧ validate_dict s' BLOCK_VALIDATORS = Ok VNone
     ∧ validate_block (VDict b) = (Ok (Imm VNone), s'))
  ∧ (∀ n, b !! KStr "base_fee_per_gas" = Some (VInt n) → 0 ≤ n →
       is_cancun_block (VDict (set_null SHANGHAI_FIELDS b)) = false →
       is_prague_block
         (VDict (set_null (SHANGHAI_FIELDS ++ CANCUN_FIELDS) b)) = false →
       validate_block (VDict b)
       = (Ok (Imm VNone),
          VDict (set_null (SHANGHAI_FIELDS ++ CANCUN_FIELDS ++ PRAGUE_FIELDS) b))).
Proof.
  intros Hlondon Hshanghai Hsub Hvalid.
  assert (∀ r s', _validate_fork_specific_fields (VDict b) = (Ok r, s') →
     (∃ n, item s' (KStr "base_fee_per_gas") = Some (VInt n) ∧ 0 ≤ n)
     ∧ item s' (KStr "withdrawals") = Some VNone
     ∧ item s' (KStr "withdrawals_root") = Some VNone
     ∧ validate_dict s' BLOCK_VALIDATORS = Ok VNone
     ∧ validate_block (VDict b) = (Ok (Imm VNone), s')) as Hpost.
  { intros r s' Hrun.
    pose proof (resolver_keeps _ _ _ Hrun) as (K1 & K2 & _ & _).
    pose proof (resolver_stages _ _ _ Hrun) as (-> & _ & _ & _ & _ & Hl & Hs & _).
    rewrite Hlondon in Hl. destruct Hl as [Hchk Heq].
    rewrite Heq, Hshanghai in Hs.
    assert (∀ k, k ∈ LONDON_FIELDS → item s' (KStr k) = item (VDict b) (KStr k))
      as F1 by (intros k Hk; rewrite (K1 k Hk); by rewrite Heq).
    assert (∀ k, k ∈ SHANGHAI_FIELDS → item s' (KStr k) = Some VNone)
      as F2 by (intros k Hk; destruct (K2 k Hk) as [-> _]; by apply Hs).
    pose proof (resolved_block_accepted b s' Arg Hsub Hvalid Hrun) as Hdict.
    split_and!.
    - rewrite F1 by (unfold LONDON_FIELDS; set_solver). simpl.
      unfold london_check, mbind, outcome_bind in Hchk. simpl in Hchk.
      destruct (b !! KStr "base_fee_per_gas") as [x|]; [|discriminate].
      destruct x as [| |n| | | | |]; try discriminate. simpl in Hchk.
      destruct (bool_decide_reflect (0 ≤ n)); [eauto | discriminate].
    - apply F2. unfold SHANGHAI_FIELDS. set_solver.
    - apply F2. unfold SHANGHAI_FIELDS. set_solver.
    - exact Hdict.
    - rewrite validate_block_run, Hrun, Hdict. reflexivity. }
  split; [exact Hpost|].
  intros n Hfee Hn Hcancun Hprague.
  assert (_validate_fork_specific_fields (VDict b)
          = (Ok Arg,
             VDict (set_null (SHANGHAI_FIELDS ++ CANCUN_FIELDS ++ PRAGUE_FIELDS) b)))
    as Hrun.
  { rewrite resolver_run.
    rewrite london_stage_shape. unfold stage at 1. rewrite Hlondon.
    unfold london_check, mbind, outcome_bind. simpl Py.getitem. rewrite Hfee.
    unfold validate_positive_integer. rewrite bool_decide_eq_true_2 by done.
    rewrite shanghai_stage_shape. unfold stage at 1. rewrite Hshanghai.
    rewrite cancun_stage_shape. unfold stage at 1. rewrite Hcancun.
    rewrite prague_stage_shape. unfold stage at 1.
    change (set_null CANCUN_FIELDS (set_null SHANGHAI_FIELDS b))
      with (set_null (SHANGHAI_FIELDS ++ CANCUN_FIELDS) b).
    rewrite Hprague. reflexivity. }
  by apply (Hpost Arg).
Qed.

End ForkFieldsProperties.

(** C2, counterexample: on a London block that passes, what comes back is
    [None]: neither the object passed in nor its contents. *)
Lemma validate_block_result_is_not_the_block :
  let block := Sample.london_block (VList [Sample.legacy_tx]) in
  let run := @validate_block Sample.by_fields block in
  run.1 = Ok (Imm VNone) ∧ run.1 ≠ Ok Arg ∧ run.1 ≠ Ok (Imm run.2).
Proof.
  intros block run.
  assert (run.1 = Ok (Imm VNone)) as Hrun by (vm_compute; reflexivity).
  assert (is_dict run.2 = true) as Hdict by (vm_compute; reflexivity).
  clearbody run. clear block. destruct run as [res s']. simpl in *. subst res.
  split; [reflexivity|]. split; [discriminate|].
  intros Hs. injection Hs as Hs. subst s'. discriminate Hdict.
Qed.

(** ** The theorems on a London block *)

#[local] Existing Instance Sample.by_fields.

Lemma other_fields_valid_spec (b : gmap key pyvalue) (t : table) :
  other_fields_valid b t = true →
  Forall (λ kf : string * validator,
            kf.1 ∈ FORK_FIELDS
            ∨ ∃ x, b !! KStr kf.1 = Some x ∧ is_ok (kf.2 x) = true) t.
Proof.
  unfold other_fields_valid. rewrite forallb_forall, Forall_forall.
  intros Hall kf Hkf. apply list_elem_of_In in Hkf. specialize (Hall kf Hkf).
  apply orb_true_iff in Hall as [Hf|Hx].
  - left. by apply bool_decide_eq_true in Hf.
  - right. destruct (b !! KStr kf.1) as [x|]; [eauto | discriminate].
Qed.

Lemma resolver_nulls_pre_fork_fields_witness :
  let s := Sample.london_block (VList [Sample.legacy_tx]) in
  let s' := (_validate_fork_specific_fields s).2 in
  _validate_fork_specific_fields s = (Ok Arg, s')
  ∧ (∀ k, k ∈ LONDON_FIELDS →
       item s' (KStr k) = if is_london_block s then item s (KStr k) else Some VNone)
  ∧ (∀ k, k ∈ SHANGHAI_FIELDS →
       item s' (KStr k) =
         if is_shanghai_block (after_london s) then item s (KStr k) else Some VNone)
  ∧ (∀ k, k ∈ CANCUN_FIELDS →
       item s' (KStr k) =
         if is_cancun_block (after_shanghai s) then item s (KStr k) else Some VNone)
  ∧ (∀ k, k ∈ PRAGUE_FIELDS →
       item s' (KStr k) =
         if is_prague_block (after_cancun s) then item s (KStr k) else Some VNone).
Proof.
  intros s s'.
  assert ((_validate_fork_specific_fields s).1 = Ok Arg) as Hres
    by (vm_compute; reflexivity).
  assert (_validate_fork_specific_fields s = (Ok Arg, s')) as Hrun
    by (rewrite <- Hres; apply surjective_pairing).
  exact (conj Hrun (resolver_nulls_pre_fork_fields s s' Arg Hrun)).
Defined.

Lemma london_block_passes_witness :
  let b := Sample.london_fields (VList [Sample.legacy_tx]) in
  is_london_block (VDict b) = true
  ∧ is_shanghai_block (VDict b) = false
  ∧ dom b ⊆ key_set BLOCK_VALIDATORS
  ∧ Forall (λ kf : string * validator,
              kf.1 ∈ FORK_FIELDS
              ∨ ∃ x, b !! KStr kf.1 = Some x ∧ is_ok (kf.2 x) = true)
           BLOCK_VALIDATORS
  ∧ (∀ r s', _validate_fork_specific_fields (VDict b) = (Ok r, s') →
       (∃ n, item s' (KStr "base_fee_per_gas") = Some (VInt n) ∧ 0 ≤ n)
       ∧ item s' (KStr "withdrawals") = Some VNone
       ∧ item s' (KStr "withdrawals_root") = Some VNone
       ∧ validate_dict s' BLOCK_VALIDATORS = Ok VNone
       ∧ validate_block (VDict b) = (Ok (Imm VNone), s'))
  ∧ (∀ n, b !! KStr "base_fee_per_gas" = Some (VInt n) → 0 ≤ n →
       is_cancun_block (VDict (set_null SHANGHAI_FIELDS b)) = false →
       is_prague_block
         (VDict (set_null (SHANGHAI_FIELDS ++ CANCUN_FIELDS) b)) = false →
       validate_block (VDict b)
       = (Ok (Imm VNone),
          VDict (set_null (SHANGHAI_FIELDS ++ CANCUN_FIELDS ++ PRAGUE_FIELDS) b))).
Proof.
  intros b.
  assert (is_london_block (VDict b) = true) as Hl by (vm_compute; reflexivity).
  assert (is_shanghai_block (VDict b) = false) as Hs by (vm_compute; reflexivity).
  assert (dom b ⊆ key_set BLOCK_VALIDATORS) as Hsub by compute_done.
  assert (Forall (λ kf : string * validator,
                    kf.1 ∈ FORK_FIELDS
                    ∨ ∃ x, b !! KStr kf.1 = Some x ∧ is_ok (kf.2 x) = true)
                 BLOCK_VALIDATORS) as Hvalid
    by (apply other_fields_valid_spec; vm_compute; reflexivity).
  exact (conj Hl (conj Hs (conj Hsub (conj Hvalid
           (london_block_passes b Hl Hs Hsub Hvalid))))).
Defined.

(** * Further properties *)

(** ** Field validators *)

Lemma validate_32_byte_string_decides :
  decides validate_32_byte_string (bytes_of_length 32).
Proof.
  intros [| | | |bs| | |]; try reflexivity.
  unfold validate_32_byte_string, mbind, outcome_bind. simpl.
  destruct (bool_decide_reflect (length bs = 32%nat)) as [Hb|Hb];
    [rewrite bool_decide_eq_false_2 by lia | rewrite bool_decide_eq_true_2 by lia];
    reflexivity.
Qed.

Lemma validate_nonce_decides : decides validate_nonce (bytes_of_length 8).
Proof.
  intros [| | | |bs| | |]; try reflexivity.
  unfold validate_nonce, mbind, outcome_bind. simpl.
  destruct (bool_decide_reflect (length bs = 8%nat)) as [Hb|Hb];
    [rewrite bool_decide_eq_false_2 by lia | rewrite bool_decide_eq_true_2 by lia];
    reflexivity.
Qed.

Lemma validate_address_decides :
  decides validate_canonical_address (bytes_of_length 20).
Proof. exact validate_canonical_address_decides. Qed.

Lemma decides_ok (f : validator) (p : pyvalue → bool) (v : pyvalue) :
  decides f p → is_ok (f v) = p v.
Proof.
  intros Hf. specialize (Hf v). destruct (p v); [by rewrite Hf|].
  by destruct (f v) as [|[]].
Qed.

Lemma decides_checked (f : validator) (p : pyvalue → bool) (v : pyvalue) :
  decides f p → is_ok (f v) || is_validation_error (f v) = true.
Proof.
  intros Hf. specialize (Hf v). destruct (p v); [by rewrite Hf|].
  by destruct (f v) as [|[]].
Qed.

(** X1: [validate_logs_bloom] returns normally exactly on the integers from
    0 to [2^2048 - 1] and raises [ValidationError] on everything else; so
    [2^2048 - 1] passes and [2^2048] does not. *)
Theorem validate_logs_bloom_range :
  decides validate_logs_bloom (uint_upto UINT2048_MAX)
  ∧ validate_logs_bloom (VInt (2 ^ 2048 - 1)) = Ok VNone
  ∧ is_validation_error (validate_logs_bloom (VInt (2 ^ 2048))) = true.
Proof.
  assert (decides validate_logs_bloom (uint_upto UINT2048_MAX)) as Hd
    by (by eapply uint_decides).
  split_and!; [exact Hd|..].
  - exact (Hd (VInt (2 ^ 2048 - 1))).
  - exact (Hd (VInt (2 ^ 2048))).
Qed.

Lemma validate_status_decides : decides validate_status is_bit.
Proof.
  intros [| |z| | | | |]; try reflexivity.
  unfold validate_status, validate_positive_integer, is_bit, mbind, outcome_bind.
  simpl.
  destruct (bool_decide_reflect (0 ≤ z)); simpl;
    [|by rewrite bool_decide_eq_false_2 by lia].
  destruct (bool_decide_reflect (1 < z));
    [by rewrite bool_decide_eq_false_2 by lia
    |by rewrite bool_decide_eq_true_2 by lia].
Qed.

(** X2: [validate_status], written with [value > 1], and
    [validate_y_parity], written with [value not in (0, 1)], accept the same
    values: the integers 0 and 1, and no boolean; on every other value both
    raise [ValidationError]. *)
Theorem status_and_parity_agree :
  decides validate_status is_bit
  ∧ decides validate_y_parity is_bit
  ∧ (∀ v, is_ok (validate_status v) = is_ok (validate_y_parity v)).
Proof.
  split_and!; [exact validate_status_decides | exact validate_y_parity_decides |].
  intros v. rewrite (decides_ok _ _ v validate_status_decides).
  by rewrite (decides_ok _ _ v validate_y_parity_decides).
Qed.

(** X3: [validate_log_entry_type] returns normally on the strings
    ["pending"] and ["mined"] and on nothing else; on any other hashable
    value it raises [ValidationError]; on a value that cannot be hashed (a
    list, a dictionary, a tuple that holds one) the membership test itself
    raises [TypeError]. *)
Theorem validate_log_entry_type_outcomes (v : pyvalue) :
  (validate_log_entry_type v = Ok VNone ↔ v = VStr "pending" ∨ v = VStr "mined")
  ∧ (if hashable v
     then is_ok (validate_log_entry_type v)
          || is_validation_error (validate_log_entry_type v) = true
     else validate_log_entry_type v = Raise TypeError).
Proof.
  unfold validate_log_entry_type, in_str_set, mbind, outcome_bind.
  destruct (hashable v) eqn:Hh.
  - destruct v as [| | |s| | | |]; simpl;
      try (split; [split; [discriminate | by intros [[=]|[=]]] | reflexivity]).
    destruct (bool_decide_reflect (s ∈ ["pending"; "mined"])) as [Hs|Hs];
      rewrite !elem_of_cons, elem_of_nil in Hs; simpl.
    + split; [|reflexivity]. split; [intros _ | done].
      destruct Hs as [->|[->|[]]]; auto.
    + split; [|reflexivity]. split; [discriminate|].
      intros [[= ->]|[= ->]]; exfalso; apply Hs; auto.
  - split; [|reflexivity]. split; [discriminate|].
    intros [->| ->]; discriminate.
Qed.

(** ** Records whose fields are all decided *)




(** ** Accounts *)

Lemma validate_array_decides (f : validator) (p : pyvalue → bool) :
  decides f p →
  decides (λ v, validate_array v f) (λ v, is_list_like v && forallb p (items v)).
Proof.
  intros Hf v.
  assert (∀ xs, if forallb p xs
                then Py.for_each xs (λ x, _ ← f x; Ok ()) = Ok ()
                else is_validation_error
                       (Py.for_each xs (λ x, _ ← f x; Ok ())) = true) as Hloop.
  { induction xs as [|x xs IH]; simpl; [done|].
    unfold mbind at 1 2 4 5, outcome_bind at 1 2 4 5.
    pose proof (Hf x) as Hx. destruct (p x); simpl.
    - rewrite Hx. exact IH.
    - by destruct (f x) as [|[]]. }
  destruct v as [| | | | |xs|xs|]; try reflexivity; simpl;
    unfold mbind at 1 3, outcome_bind at 1 3; specialize (Hloop xs);
    (destruct (forallb p xs); [by rewrite Hloop|];
     by destruct (Py.for_each xs _) as [|[]]).
Qed.

(** X5: [validate_accounts] returns normally exactly on a list or tuple,
    possibly empty, of byte strings of 20 bytes each; on every other value it
    raises [ValidationError], and never another exception. *)
Theorem validate_accounts_decides : decides validate_accounts is_account_list.
Proof. apply validate_array_decides, validate_address_decides. Qed.

Section DerivedAddresses.
Variable keccak : list byte → list byte.
Variable private_key_to_public_key : list byte → outcome (list byte).
Hypothesis keccak_length : ∀ data, length (keccak data) = 32%nat.

(** X6: with a [keccak] whose digests have 32 bytes,
    [private_key_to_address] returns exactly when the public key can be
    derived, and what it returns is a byte string of 20 bytes, the last 20
    of the digest of the public key: [validate_canonical_address] accepts
    it, and [validate_accounts] accepts any list of such addresses. *)
Theorem derived_addresses_are_canonical (private_keys : list (list byte))
    (addresses : list (list byte)) :
  Forall2 (λ private_key address,
             Accounts.private_key_to_address keccak private_key_to_public_key
               private_key = Ok address)
          private_keys addresses →
  Forall (λ address,
            length address = 20%nat
            ∧ validate_canonical_address (VBytes address) = Ok VNone) addresses
  ∧ validate_accounts (VList (VBytes <$> addresses)) = Ok VNone.
Proof.
  intros Hall.
  assert (Forall (λ address, length address = 20%nat) addresses) as Hlen.
  { induction Hall as [|pk a pks addrs Ha _ IH]; constructor; [|exact IH].
    unfold Accounts.private_key_to_address, mbind, outcome_bind in Ha.
    destruct (private_key_to_public_key pk) as [pub|]; [|discriminate].
    injection Ha as <-. rewrite length_drop, keccak_length. reflexivity. }
  split.
  - eapply Forall_impl; [exact Hlen|]. intros a Ha. split; [exact Ha|].
    pose proof (validate_address_decides (VBytes a)) as Hd. simpl in Hd.
    by rewrite bool_decide_eq_true_2 in Hd.
  - pose proof (validate_array_decides _ _ validate_address_decides
                  (VList (VBytes <$> addresses))) as Hd.
    simpl in Hd.
    rewrite (proj2 (forallb_forall _ _)) in Hd; [exact Hd|].
    intros v Hv. apply list_elem_of_In, list_elem_of_fmap in Hv as (a & -> & Ha).
    rewrite Forall_forall in Hlen. simpl. by rewrite bool_decide_eq_true_2 by auto.
Qed.

(** The address is there exactly when the public key is. *)
Lemma private_key_to_address_returns (private_key : list byte) :
  is_ok (Accounts.private_key_to_address keccak private_key_to_public_key private_key)
  = is_ok (private_key_to_public_key private_key).
Proof.
  unfold Accounts.private_key_to_address, mbind, outcome_bind.
  by destruct (private_key_to_public_key private_key).
Qed.

End DerivedAddresses.

(** ** Transactions and receipts as unions *)

Lemma validate_any_ok_inv (v x : pyvalue) (fs : list validator) :
  validate_any v fs = Ok x → Exists (λ f : validator, is_ok (f v) = true) fs.
Proof.
  induction fs as [|f fs IH]; simpl; [discriminate|].
  destruct (f v) as [|[]] eqn:Hf; try discriminate.
  - intros _. apply Exists_cons_hd. by rewrite Hf.
  - intros Hrest. apply Exists_cons_tl, IH, Hrest.
Qed.

Lemma validate_dict_ok_none (v : pyvalue) (t : table) :
  is_ok (validate_dict v t) = true → validate_dict v t = Ok VNone.
Proof.
  destruct (validate_dict v t) as [r|] eqn:Hv; [|discriminate]. intros _.
  destruct v; try discriminate. by apply validate_dict_ok in Hv as (-> & _).
Qed.

Lemma kind_checked (k k' : tx_kind) (r : pyvalue) :
  is_transaction k r →
  is_ok (validate_dict r (tx_table k'))
  || is_validation_error (validate_dict r (tx_table k')) = true.
Proof.
  intros Hr. destruct (decide (k = k')) as [->|Hkk].
  - unfold is_transaction in Hr. by rewrite Hr.
  - rewrite (transaction_other_kind k k' r Hr Hkk). apply orb_true_r.
Qed.

(** The union of the five dictionary validators, by kind. *)
Lemma validate_transaction_unfold (r : pyvalue) :
  validate_transaction r
  = validate_any r
      [ (λ v, validate_dict v (tx_table Legacy));
        (λ v, validate_dict v (tx_table AccessList));
        (λ v, validate_dict v (tx_table DynamicFee));
        (λ v, validate_dict v (tx_table Blob));
        (λ v, validate_dict v (tx_table SetCode)) ].
Proof. reflexivity. Qed.

(** X7: [validate_transaction] returns normally exactly on the records
    that the dictionary validator of one of the five kinds accepts, and no
    record is of two kinds. *)
Theorem validate_transaction_kinds (r : pyvalue) :
  (validate_transaction r = Ok VNone ↔ ∃ k, is_transaction k r)
  ∧ (∀ k k', is_transaction k r → is_transaction k' r → k = k').
Proof.
  rewrite validate_transaction_unfold. split; [split|].
  - intros Hok. apply validate_any_ok_inv in Hok.
    rewrite !Exists_cons, Exists_nil in Hok. cbv beta in Hok.
    destruct Hok as [H|[H|[H|[H|[H|[]]]]]]; apply validate_dict_ok_none in H.
    + exists Legacy. exact H.
    + exists AccessList. exact H.
    + exists DynamicFee. exact H.
    + exists Blob. exact H.
    + exists SetCode. exact H.
  - intros [k Hr]. apply validate_any_some.
    + assert (is_ok (validate_dict r (tx_table k)) = true) as Hok
        by (unfold is_transaction in Hr; rewrite Hr; reflexivity).
      destruct k.
      * apply Exists_cons_hd. exact Hok.
      * apply Exists_cons_tl, Exists_cons_hd. exact Hok.
      * do 2 apply Exists_cons_tl. apply Exists_cons_hd. exact Hok.
      * do 3 apply Exists_cons_tl. apply Exists_cons_hd. exact Hok.
      * do 4 apply Exists_cons_tl. apply Exists_cons_hd. exact Hok.
    + apply Forall_cons; split; [exact (kind_checked k Legacy r Hr)|].
      apply Forall_cons; split; [exact (kind_checked k AccessList r Hr)|].
      apply Forall_cons; split; [exact (kind_checked k DynamicFee r Hr)|].
      apply Forall_cons; split; [exact (kind_checked k Blob r Hr)|].
      apply Forall_cons; split; [exact (kind_checked k SetCode r Hr)|].
      apply Forall_nil_2.
  - intros k k' Hk Hk'. destruct (decide (k = k')) as [Heq|Hne]; [exact Heq|].
    pose proof (transaction_other_kind k k' r Hk Hne) as Herr.
    unfold is_transaction in Hk'. rewrite Hk' in Herr. discriminate Herr.
Qed.

(** The entries of a table that a record accepted under it satisfies. *)
Lemma accepted_item (d : gmap key pyvalue) (t : table) (i : nat) (k : string)
    (f : validator) (p : pyvalue → bool) :
  validate_dict (VDict d) t = Ok VNone → t !! i = Some (k, f) → decides f p →
  item_is (VDict d) k p = true.
Proof.
  intros Hok Hi Hf. apply validate_dict_ok in Hok as (_ & _ & Hall).
  rewrite Forall_forall in Hall.
  destruct (Hall (k, f)) as (x & Hx & Hfx); [by apply list_elem_of_lookup_2 with i|].
  simpl in *. unfold item_is. simpl. rewrite Hx.
  by rewrite <- (decides_ok f p x Hf).
Qed.

(** X8: the tables of the four typed kinds are built by [merge] over the
    legacy table, which replaces the validator under [v]: a record of a
    typed kind holds 0 or 1 under [v] and under [y_parity] and a 256-bit
    integer under [chain_id]; the values 27 and 28, and those from 35 on,
    which the legacy table admits under [v], are refused there. *)
Theorem typed_transaction_signature (k : tx_kind) (r : pyvalue) :
  is_transaction k r → k ≠ Legacy →
  item_is r "v" is_bit = true
  ∧ item_is r "y_parity" is_bit = true
  ∧ item_is r "chain_id" (uint_upto UINT256_MAX) = true.
Proof.
  intros Hr Hk.
  destruct (validate_dict_is_dict r (tx_table k)) as [d ->];
    [unfold is_transaction in Hr; by rewrite Hr|].
  unfold is_transaction in Hr.
  split_and!.
  - apply (accepted_item d (tx_table k) 12 "v" validate_y_parity);
      [done | by destruct k | apply validate_y_parity_decides].
  - apply (accepted_item d (tx_table k) 15 "y_parity" validate_y_parity);
      [done | by destruct k | apply validate_y_parity_decides].
  - apply (accepted_item d (tx_table k) 16 "chain_id" validate_uint256);
      [done | by destruct k | apply validate_uint256_decides].
Qed.

Lemma typed_transaction_signature_witness :
  is_transaction DynamicFee Sample.dynamic_fee_tx
  ∧ DynamicFee ≠ Legacy
  ∧ item_is Sample.dynamic_fee_tx "v" is_bit = true
  ∧ item_is Sample.dynamic_fee_tx "y_parity" is_bit = true
  ∧ item_is Sample.dynamic_fee_tx "chain_id" (uint_upto UINT256_MAX) = true.
Proof.
  assert (is_transaction DynamicFee Sample.dynamic_fee_tx) as Hr
    by (vm_compute; reflexivity).
  assert (DynamicFee ≠ Legacy) as Hk by discriminate.
  exact (conj Hr (conj Hk
           (typed_transaction_signature DynamicFee Sample.dynamic_fee_tx Hr Hk))).
Defined.

(** X9: [validate_receipt] returns normally exactly on the records that
    the base table or the Cancun table accepts, and no record is accepted
    by both: the Cancun table has the two blob names besides. *)
Theorem validate_receipt_shapes (r : pyvalue) :
  (validate_receipt r = Ok VNone ↔
     validate_dict r RECEIPT_VALIDATORS = Ok VNone
     ∨ validate_dict r CANCUN_RECEIPT_VALIDATORS = Ok VNone)
  ∧ ¬ (validate_dict r RECEIPT_VALIDATORS = Ok VNone
       ∧ validate_dict r CANCUN_RECEIPT_VALIDATORS = Ok VNone).
Proof.
  assert (key_set RECEIPT_VALIDATORS ≠ key_set CANCUN_RECEIPT_VALIDATORS) as Hne.
  { intros Heq. apply (f_equal size) in Heq. vm_compute in Heq. discriminate Heq. }
  assert (validate_dict r RECEIPT_VALIDATORS = Ok VNone →
          is_validation_error (validate_dict r CANCUN_RECEIPT_VALIDATORS) = true) as H12.
  { intros H1. apply validate_dict_exclusive with RECEIPT_VALIDATORS; [|done].
    by rewrite H1. }
  assert (validate_dict r CANCUN_RECEIPT_VALIDATORS = Ok VNone →
          is_validation_error (validate_dict r RECEIPT_VALIDATORS) = true) as H21.
  { intros H2. apply validate_dict_exclusive with CANCUN_RECEIPT_VALIDATORS;
      [by rewrite H2 | done]. }
  split; [split|].
  - intros Hok. apply validate_any_ok_inv in Hok.
    rewrite !Exists_cons, Exists_nil in Hok.
    destruct Hok as [H|[H|[]]]; apply validate_dict_ok_none in H; auto.
  - unfold validate_receipt. intros [H1|H2].
    + apply validate_any_head. by rewrite H1.
    + rewrite validate_any_skip by (by apply H21).
      apply validate_any_head. by rewrite H2.
  - intros [H1 H2]. apply H12 in H1. by rewrite H2 in H1.
Qed.

(** X10: the [transactions] validator of [BLOCK_VALIDATORS] accepts every
    list of byte strings of 32 bytes, the empty list among them, and every
    list of records that are all legacy, all access-list, all dynamic-fee
    or all blob transactions. *)
Theorem block_transactions_accepted (xs : list pyvalue) :
  Forall (λ x, bytes_of_length 32 x = true) xs
  ∨ (∃ k, k ≠ SetCode ∧ Forall (is_transaction k) xs) →
  field_validator BLOCK_VALIDATORS "transactions" (VList xs) = Ok VNone.
Proof.
  intros [Hh|(k & Hk & Hall)].
  - apply block_transactions_accept_hashes.
    eapply Forall_impl; [exact Hh|]. intros x Hx.
    pose proof (validate_32_byte_string_decides x) as Hd. by rewrite Hx in Hd.
  - by apply block_transactions_accept_kind with k.
Qed.

Lemma block_transactions_accepted_witness :
  let xs := [Sample.dynamic_fee_tx; Sample.dynamic_fee_tx] in
  (Forall (λ x, bytes_of_length 32 x = true) xs
   ∨ (∃ k, k ≠ SetCode ∧ Forall (is_transaction k) xs))
  ∧ field_validator BLOCK_VALIDATORS "transactions" (VList xs) = Ok VNone.
Proof.
  intros xs.
  assert (is_transaction DynamicFee Sample.dynamic_fee_tx) as Hr
    by (vm_compute; reflexivity).
  assert (Forall (λ x, bytes_of_length 32 x = true) xs
          ∨ (∃ k, k ≠ SetCode ∧ Forall (is_transaction k) xs)) as Hxs.
  { right. exists DynamicFee. split; [discriminate|].
    apply Forall_cons. split; [exact Hr|]. apply Forall_cons. split; [exact Hr|].
    apply Forall_nil_2. }
  exact (conj Hxs (block_transactions_accepted xs Hxs)).
Defined.

(** ** Records changed under one name *)

Lemma validate_dict_with_item (d : gmap key pyvalue) (t : table) (k : string)
    (v : pyvalue) :
  validate_dict (VDict d) t = Ok VNone →
  KStr k ∈ key_set t →
  Forall (λ kf : string * validator, kf.1 = k → is_ok (kf.2 v) = true) t →
  validate_dict (VDict (<[KStr k := v]> d)) t = Ok VNone.
Proof.
  intros Hok Hk Hv. apply validate_dict_ok in Hok as (_ & Hdom & Hall).
  apply validate_dict_ok. split_and!; [done| |].
  - rewrite dom_insert_L, Hdom. set_solver.
  - rewrite Forall_forall in Hall, Hv. apply Forall_forall. intros kf Hkf.
    destruct (decide (kf.1 = k)) as [Heq|Hne].
    + exists v. rewrite Heq, lookup_insert_eq. split; [done|]. by apply Hv.
    + rewrite lookup_insert_ne by congruence. by apply Hall.
Qed.

(** Whether every validator of a table under the name [k] accepts [v]. *)
Lemma accepts_under_spec (t : table) (k : string) (v : pyvalue) :
  forallb (λ kf : string * validator, negb (String.eqb kf.1 k) || is_ok (kf.2 v)) t
  = true →
  Forall (λ kf : string * validator, kf.1 = k → is_ok (kf.2 v) = true) t.
Proof.
  rewrite forallb_forall, Forall_forall. intros Hall kf Hkf Hname.
  apply list_elem_of_In in Hkf. specialize (Hall kf Hkf).
  apply String.eqb_eq in Hname. rewrite Hname in Hall. exact Hall.
Qed.

(** X11: in a transaction record of any of the five kinds, [None] may
    stand under [block_hash], [block_number] and [transaction_index], and
    the empty byte string under [to]: putting it there leaves the record a
    transaction of the same kind. *)
Theorem transaction_nullable_fields (k : tx_kind) (r : pyvalue) (name : string) :
  is_transaction k r → name ∈ PENDING_FIELDS →
  is_transaction k (with_item r name VNone)
  ∧ is_transaction k (with_item r "to" (VBytes [])).
Proof.
  intros Hr Hname.
  destruct (validate_dict_is_dict r (tx_table k)) as [d ->];
    [unfold is_transaction in Hr; by rewrite Hr|].
  unfold is_transaction in *. simpl. split.
  - repeat (apply elem_of_cons in Hname as [->|Hname]);
      [..|by apply elem_of_nil in Hname];
      (apply validate_dict_with_item;
       [exact Hr
       |destruct k; compute_done
       |apply accepts_under_spec; destruct k; vm_compute; reflexivity]).
  - apply validate_dict_with_item;
      [exact Hr
      |destruct k; compute_done
      |apply accepts_under_spec; destruct k; vm_compute; reflexivity].
Qed.

Lemma transaction_nullable_fields_witness :
  is_transaction Legacy Sample.legacy_tx
  ∧ "block_hash" ∈ PENDING_FIELDS
  ∧ is_transaction Legacy (with_item Sample.legacy_tx "block_hash" VNone)
  ∧ is_transaction Legacy (with_item Sample.legacy_tx "to" (VBytes [])).
Proof.
  assert (is_transaction Legacy Sample.legacy_tx) as Hr by (vm_compute; reflexivity).
  assert ("block_hash" ∈ PENDING_FIELDS) as Hn by (apply list_elem_of_here).
  exact (conj Hr (conj Hn
           (transaction_nullable_fields Legacy Sample.legacy_tx "block_hash" Hr Hn))).
Defined.

(** ** Tables built by [merge] *)

Lemma lookup_without (ks : list string) (d : gmap key pyvalue) (k : key) :
  k ∉ KStr <$> ks → foldr (λ k m, delete (KStr k) m) d ks !! k = d !! k.
Proof.
  induction ks as [|k0 ks IH]; [done|].
  rewrite fmap_cons, not_elem_of_cons. intros [Hne Hk]. simpl.
  rewrite lookup_delete_ne by done. by apply IH.
Qed.

Lemma dom_without (ks : list string) (d : gmap key pyvalue) :
  dom (foldr (λ k m, delete (KStr k) m) d ks) = dom d ∖ list_to_set (KStr <$> ks).
Proof.
  induction ks as [|k0 ks IH]; simpl; [set_solver|].
  rewrite dom_delete_L, IH. set_solver.
Qed.

(** A record accepted under a table with more entries at its end is
    accepted under the shorter table once the values under the added names
    are deleted. *)
Lemma validate_dict_without (d : gmap key pyvalue) (t ex : table) :
  validate_dict (VDict d) (t ++ ex)%list = Ok VNone →
  (∀ k, k ∈ keys ex → k ∉ keys t) →
  validate_dict (VDict (foldr (λ k m, delete (KStr k) m) d (keys ex))) t = Ok VNone.
Proof.
  intros Hok Hdisj. apply validate_dict_ok in Hok as (_ & Hdom & Hall).
  apply Forall_app in Hall as [Hall _].
  assert (∀ kf : string * validator, kf ∈ t → KStr kf.1 ∉ KStr <$> keys ex) as Hnot.
  { intros kf Hkf (k & [= Heq] & Hk)%list_elem_of_fmap.
    apply (Hdisj k Hk). rewrite <- Heq. unfold keys.
    apply list_elem_of_fmap. by exists kf. }
  apply validate_dict_ok. split_and!; [done| |].
  - rewrite dom_without, Hdom. unfold key_set, keys in *.
    rewrite fmap_app, fmap_app, list_to_set_app_L.
    apply set_eq. intros k. rewrite elem_of_difference, elem_of_union.
    split; [tauto|]. intros Hk. split; [tauto|].
    rewrite elem_of_list_to_set. rewrite elem_of_list_to_set in Hk.
    apply list_elem_of_fmap in Hk as (k0 & -> & Hk0).
    apply list_elem_of_fmap in Hk0 as (kf & -> & Hkf). by apply Hnot.
  - rewrite Forall_forall in Hall. apply Forall_forall. intros kf Hkf.
    rewrite lookup_without by (by apply Hnot). by apply Hall.
Qed.

(** X12: the tables are layered: a dynamic-fee record without its two fee
    caps is an access-list record, and a blob record without its two blob
    fields, like a set-code record without its authorization list, is a
    dynamic-fee record. *)
Theorem transaction_layers (k : tx_kind) (r : pyvalue) :
  is_transaction k r →
  match k with
  | DynamicFee => is_transaction AccessList (without_items DYNAMIC_FEE_FIELDS r)
  | Blob => is_transaction DynamicFee (without_items BLOB_FIELDS r)
  | SetCode => is_transaction DynamicFee (without_items SET_CODE_FIELDS r)
  | Legacy | AccessList => True
  end.
Proof.
  intros Hr.
  destruct (validate_dict_is_dict r (tx_table k)) as [d ->];
    [unfold is_transaction in Hr; by rewrite Hr|].
  unfold is_transaction in *.
  assert (∀ (t ex : table) (ks : list string),
            validate_dict (VDict d) (t ++ ex)%list = Ok VNone →
            keys ex = ks →
            forallb (λ k, bool_decide (k ∉ keys t)) ks = true →
            validate_dict (without_items ks (VDict d)) t = Ok VNone) as Hdrop.
  { intros t ex ks Hok <- Hks. apply validate_dict_without; [exact Hok|].
    rewrite forallb_forall in Hks. intros k0 Hk0.
    apply list_elem_of_In in Hk0. specialize (Hks k0 Hk0).
    by apply bool_decide_eq_true in Hks. }
  destruct k; [exact I | exact I | ..].
  - apply (Hdrop (tx_table AccessList)
             [ ("max_fee_per_gas", validate_uint256);
               ("max_priority_fee_per_gas", validate_uint256) ]);
      [exact Hr | reflexivity | vm_compute; reflexivity].
  - apply (Hdrop (tx_table DynamicFee)
             [ ("max_fee_per_blob_gas", validate_uint256);
               ("blob_versioned_hashes", λ v, validate_array v validate_32_byte_string) ]);
      [exact Hr | reflexivity | vm_compute; reflexivity].
  - apply (Hdrop (tx_table DynamicFee)
             [ ("authorization_list", _validate_outbound_authorization_list) ]);
      [exact Hr | reflexivity | vm_compute; reflexivity].
Qed.

Lemma transaction_layers_witness :
  is_transaction DynamicFee Sample.dynamic_fee_tx
  ∧ is_transaction AccessList (without_items DYNAMIC_FEE_FIELDS Sample.dynamic_fee_tx).
Proof.
  assert (is_transaction DynamicFee Sample.dynamic_fee_tx) as Hr
    by (vm_compute; reflexivity).
  exact (conj Hr (transaction_layers DynamicFee Sample.dynamic_fee_tx Hr)).
Defined.

(** ** Blocks *)

Section BlockProperties.
Context `{ForkRules}.

(** X13: take a dictionary on which no fork predicate holds, each read as
    its stage finds the block, with no name the table lacks and with valid
    values under the names that are not fork-specific.  Then
    [validate_block] returns, and it leaves [None] under all seven
    fork-specific names, whatever the block held or lacked there. *)
Theorem pre_fork_block_passes (b : gmap key pyvalue) :
  is_london_block (VDict b) = false →
  is_shanghai_block (VDict (set_null LONDON_FIELDS b)) = false →
  is_cancun_block (VDict (set_null (LONDON_FIELDS ++ SHANGHAI_FIELDS) b)) = false →
  is_prague_block
    (VDict (set_null (LONDON_FIELDS ++ SHANGHAI_FIELDS ++ CANCUN_FIELDS) b)) = false →
  dom b ⊆ key_set BLOCK_VALIDATORS →
  Forall (λ kf : string * validator,
            kf.1 ∈ FORK_FIELDS
            ∨ ∃ x, b !! KStr kf.1 = Some x ∧ is_ok (kf.2 x) = true)
         BLOCK_VALIDATORS →
  validate_block (VDict b) = (Ok (Imm VNone), VDict (set_null FORK_FIELDS b))
  ∧ ∀ k, k ∈ FORK_FIELDS → set_null FORK_FIELDS b !! KStr k = Some VNone.
Proof.
  intros Hl Hs Hc Hp Hsub Hvalid.
  pose proof (resolver_returns_pre_london b Hl Hs Hc Hp) as Hrun.
  pose proof (resolved_block_accepted b _ Arg Hsub Hvalid Hrun) as Hdict.
  split.
  - rewrite validate_block_run, Hrun, Hdict. reflexivity.
  - intros k Hk. by apply set_null_in.
Qed.

(** X14: when the London predicate holds of a dictionary that has nothing
    under [base_fee_per_gas], [validate_block] raises [KeyError], not
    [ValidationError]; when what it has there is not a non-negative integer,
    it raises [ValidationError]; either way the block is left as it was. *)
Theorem london_block_without_base_fee (b : gmap key pyvalue) :
  is_london_block (VDict b) = true →
  match b !! KStr "base_fee_per_gas" with
  | None => validate_block (VDict b) = (Raise KeyError, VDict b)
  | Some x =>
      is_ok (validate_positive_integer x) = false →
      is_validation_error (validate_block (VDict b)).1 = true
      ∧ (validate_block (VDict b)).2 = VDict b
  end.
Proof.
  intros Hl. rewrite validate_block_run, resolver_run, london_stage_shape.
  unfold stage. rewrite Hl. unfold london_check, mbind, outcome_bind. simpl.
  destruct (b !! KStr "base_fee_per_gas") as [x|]; [|reflexivity].
  intros Hx. pose proof (decides_checked _ _ x validate_positive_integer_decides) as Hc.
  rewrite Hx in Hc. by destruct (validate_positive_integer x) as [|[]].
Qed.

(** What a stage leaves in the object does not depend on how its checks
    end. *)
Lemma stage_state p check ks (s : pyvalue) :
  (stage p check ks s).2
  = if p s then s
    else match s with VDict d => VDict (set_null ks d) | _ => s end.
Proof. unfold stage. destruct (p s); [done|]. by destruct s. Qed.

Lemma stage_false_dict p check ks (d : gmap key pyvalue) :
  p (VDict d) = false →
  stage p check ks (VDict d) = (Ok (), VDict (set_null ks d)).
Proof. unfold stage. by intros ->. Qed.

(** X15: under fork predicates that are monotonic along the stages (a fork
    that has not happened when its stage runs is followed by forks that have
    not happened either), a run of the resolver that raises has written
    nothing: the block is as it was on entry. *)
Theorem resolver_failure_writes_nothing (b : gmap key pyvalue) (e : exn)
    (s' : pyvalue) :
  (is_london_block (VDict b) = false →
   is_shanghai_block (after_london (VDict b)) = false) →
  (is_shanghai_block (after_london (VDict b)) = false →
   is_cancun_block (after_shanghai (VDict b)) = false) →
  (is_cancun_block (after_shanghai (VDict b)) = false →
   is_prague_block (after_cancun (VDict b)) = false) →
  _validate_fork_specific_fields (VDict b) = (Raise e, s') →
  s' = VDict b.
Proof.
  unfold after_cancun, after_shanghai, after_london.
  rewrite ?cancun_stage_shape, ?shanghai_stage_shape, ?london_stage_shape,
    !stage_state.
  intros H1 H2 H3. rewrite resolver_run, london_stage_shape.
  destruct (is_london_block (VDict b)) eqn:P0; cbv iota in H1, H2, H3.
  - rewrite (stage_true _ _ _ _ P0).
    destruct (london_check (VDict b)) as [[]|e0]; [|by intros [= _ <-]].
    rewrite shanghai_stage_shape.
    destruct (is_shanghai_block (VDict b)) eqn:P1; cbv iota in H2, H3.
    + rewrite (stage_true _ _ _ _ P1).
      destruct (shanghai_check (VDict b)) as [[]|e1]; [|by intros [= _ <-]].
      rewrite cancun_stage_shape.
      destruct (is_cancun_block (VDict b)) eqn:P2; cbv iota in H3.
      * rewrite (stage_true _ _ _ _ P2).
        destruct (cancun_check (VDict b)) as [[]|e2]; [|by intros [= _ <-]].
        rewrite prague_stage_shape.
        destruct (is_prague_block (VDict b)) eqn:P3.
        -- rewrite (stage_true _ _ _ _ P3).
           by destruct (prague_check (VDict b)) as [[]|e3]; intros [= _ <-].
        -- rewrite (stage_false_dict _ _ _ _ P3). discriminate.
      * rewrite (stage_false_dict _ _ _ _ P2), prague_stage_shape.
        rewrite (stage_false_dict _ _ _ _ (H3 eq_refl)). discriminate.
    + rewrite (stage_false_dict _ _ _ _ P1), cancun_stage_shape.
      pose proof (H2 eq_refl) as P2. rewrite P2 in H3. cbv iota in H3.
      rewrite (stage_false_dict _ _ _ _ P2), prague_stage_shape.
      rewrite (stage_false_dict _ _ _ _ (H3 eq_refl)). discriminate.
  - rewrite (stage_false_dict _ _ _ _ P0), shanghai_stage_shape.
    pose proof (H1 eq_refl) as P1. rewrite P1 in H2, H3. cbv iota in H2, H3.
    rewrite (stage_false_dict _ _ _ _ P1), cancun_stage_shape.
    pose proof (H2 eq_refl) as P2. rewrite P2 in H3. cbv iota in H3.
    rewrite (stage_false_dict _ _ _ _ P2), prague_stage_shape.
    rewrite (stage_false_dict _ _ _ _ (H3 eq_refl)). discriminate.
Qed.

(** X16: a block that [validate_block] has accepted holds, when the call
    returns, exactly the 27 names of [BLOCK_VALIDATORS]: the 20 it must
    have come with and the seven fork-specific ones, present even where the
    backend left them out. *)
Theorem validated_block_names (s s' : pyvalue) (r : obj) :
  validate_block s = (Ok r, s') →
  ∃ d', s' = VDict d'
        ∧ dom d' = key_set BLOCK_VALIDATORS
        ∧ size d' = 27%nat
        ∧ ∀ k, k ∈ FORK_FIELDS → is_Some (d' !! KStr k).
Proof.
  rewrite validate_block_run.
  destruct (_validate_fork_specific_fields s) as [[r0|e0] s1] eqn:Hrun;
    [|discriminate].
  pose proof (resolver_ok _ _ _ Hrun) as [-> _].
  destruct (validate_dict s1 BLOCK_VALIDATORS) as [v|] eqn:Hd; [|discriminate].
  intros [= <- <-].
  destruct (validate_dict_is_dict s1 BLOCK_VALIDATORS) as [d' ->]; [by rewrite Hd|].
  exists d'. apply validate_dict_ok in Hd as (_ & Hdom & Hall).
  split_and!; [done..| |].
  - rewrite <- size_dom, Hdom. vm_compute. reflexivity.
  - intros k Hk. apply elem_of_dom. rewrite Hdom. by apply fork_fields_in_table.
Qed.

(** X17: on anything that is not a dictionary [validate_block] raises
    [TypeError], from the subscript of the first stage or from its
    assignment, and leaves the value as it was. *)
Theorem validate_block_not_a_dict (s : pyvalue) :
  is_dict s = false → validate_block s = (Raise TypeError, s).
Proof.
  intros Hs. rewrite validate_block_run, resolver_run, london_stage_shape.
  unfold stage, london_check, mbind, outcome_bind.
  destruct (is_london_block s); by destruct s.
Qed.

End BlockProperties.

(** ** Log entries and receipts *)

(** X18: in a log entry, [None] may stand under [transaction_index],
    [block_hash] and [block_number]: putting it there leaves an accepted
    entry accepted. *)
Theorem log_entry_nullable_fields (r : pyvalue) (name : string) :
  validate_log_entry r = Ok VNone → name ∈ PENDING_LOG_FIELDS →
  validate_log_entry (with_item r name VNone) = Ok VNone.
Proof.
  intros Hr Hname. unfold validate_log_entry in *.
  destruct (validate_dict_is_dict r LOG_ENTRY_VALIDATORS) as [d ->];
    [by rewrite Hr|].
  simpl.
  repeat (apply elem_of_cons in Hname as [->|Hname]);
    [..|by apply elem_of_nil in Hname];
    (apply validate_dict_with_item;
     [exact Hr | compute_done | apply accepts_under_spec; vm_compute; reflexivity]).
Qed.

(** A mined log entry. *)
Lemma log_entry_nullable_fields_witness :
  let entry :=
    Sample.record
      [ ("type", VStr "mined"); ("log_index", VInt 0);
        ("transaction_index", VInt 0); ("transaction_hash", Sample.hash32);
        ("block_hash", Sample.hash32); ("block_number", VInt 1);
        ("address", Sample.address20); ("data", VBytes []);
        ("topics", VList [Sample.hash32]) ] in
  validate_log_entry entry = Ok VNone
  ∧ "block_hash" ∈ PENDING_LOG_FIELDS
  ∧ validate_log_entry (with_item entry "block_hash" VNone) = Ok VNone.
Proof.
  intros entry.
  assert (validate_log_entry entry = Ok VNone) as Hr by (vm_compute; reflexivity).
  assert ("block_hash" ∈ PENDING_LOG_FIELDS) as Hn
    by (apply list_elem_of_further, list_elem_of_here).
  exact (conj Hr (conj Hn (log_entry_nullable_fields entry "block_hash" Hr Hn))).
Defined.

Lemma validate_array_ok_none (v : pyvalue) (f : validator) :
  is_ok (validate_array v f) = true → validate_array v f = Ok VNone.
Proof.
  destruct v as [| | | | |xs|xs|]; try discriminate;
    unfold validate_array; unfold mbind at 1 3, outcome_bind at 1 3;
    by destruct (Py.for_each xs _).
Qed.

Lemma validate_array_items (v : pyvalue) (f : validator) :
  is_ok (validate_array v f) = true →
  is_list_like v = true ∧ Forall (λ x, is_ok (f x) = true) (items v).
Proof.
  intros Hok. apply validate_array_ok_none in Hok.
  destruct v as [| | | | |xs|xs|]; try discriminate;
    (split; [reflexivity|]); apply (validate_array_ok xs f); exact Hok.
Qed.

(** X19: a receipt that [validate_receipt] accepts holds 0 or 1 under
    [status] and, under [logs], a list or tuple every item of which
    [validate_log_entry] accepts. *)
Theorem receipt_logs_are_log_entries (r : pyvalue) :
  validate_receipt r = Ok VNone →
  item_is r "status" is_bit = true
  ∧ ∃ logs, Py.getitem r (KStr "logs") = Ok logs
            ∧ is_list_like logs = true
            ∧ Forall (λ entry, validate_log_entry entry = Ok VNone) (items logs).
Proof.
  intros Hok. apply validate_any_ok_inv in Hok.
  assert (∀ t : table,
            t !! 9%nat = Some ("logs", λ v, validate_array v validate_log_entry) →
            t !! 11%nat = Some ("status", validate_status) →
            is_ok (validate_dict r t) = true →
            item_is r "status" is_bit = true
            ∧ ∃ logs, Py.getitem r (KStr "logs") = Ok logs
                      ∧ is_list_like logs = true
                      ∧ Forall (λ entry, validate_log_entry entry = Ok VNone)
                               (items logs)) as Hshape.
  { intros t Hlogs Hstatus Ht.
    destruct (validate_dict_is_dict r t Ht) as [d ->].
    apply validate_dict_ok_none in Ht. split.
    - apply (accepted_item d t 11 "status" validate_status); [done..|].
      exact validate_status_decides.
    - apply validate_dict_ok in Ht as (_ & _ & Hall). rewrite Forall_forall in Hall.
      destruct (Hall _ (list_elem_of_lookup_2 _ _ _ Hlogs)) as (logs & Hl & Hv).
      simpl in Hl, Hv. exists logs. simpl. rewrite Hl. split; [done|].
      apply validate_array_items in Hv as [Hlike Hitems]. split; [done|].
      eapply Forall_impl; [exact Hitems|]. intros entry He. simpl in He.
      by apply validate_dict_ok_none. }
  rewrite !Exists_cons, Exists_nil in Hok. cbv beta in Hok.
  destruct Hok as [H|[H|[]]]; (apply Hshape in H; [exact H | reflexivity..]).
Qed.

Lemma receipt_logs_are_log_entries_witness :
  let receipt :=
    Sample.record
      [ ("transaction_hash", Sample.hash32); ("transaction_index", VInt 0);
        ("block_number", VInt 1); ("block_hash", Sample.hash32);
        ("cumulative_gas_used", VInt 21000); ("effective_gas_price", VInt 1);
        ("from", Sample.address20); ("gas_used", VInt 21000);
        ("contract_address", VNone); ("logs", VList []);
        ("state_root", VBytes [x01]); ("status", VInt 1);
        ("to", Sample.address20); ("type", VInt 0) ] in
  validate_receipt receipt = Ok VNone
  ∧ item_is receipt "status" is_bit = true
  ∧ ∃ logs, Py.getitem receipt (KStr "logs") = Ok logs
            ∧ is_list_like logs = true
            ∧ Forall (λ entry, validate_log_entry entry = Ok VNone) (items logs).
Proof.
  intros receipt.
  assert (validate_receipt receipt = Ok VNone) as Hr by (vm_compute; reflexivity).
  exact (conj Hr (receipt_logs_are_log_entries receipt Hr)).
Defined.

(** ** The further theorems on sample values *)

Lemma derived_addresses_are_canonical_witness :
  let addresses := [replicate 20 x00] in
  (∀ data, length (zero_digest data) = 32%nat)
  ∧ Forall2 (λ private_key address,
               Accounts.private_key_to_address zero_digest same_key private_key
               = Ok address) [[x01]] addresses
  ∧ Forall (λ address,
              length address = 20%nat
              ∧ validate_canonical_address (VBytes address) = Ok VNone) addresses
  ∧ validate_accounts (VList (VBytes <$> addresses)) = Ok VNone.
Proof.
  intros addresses.
  assert (∀ data, length (zero_digest data) = 32%nat) as Hlen by (intros; reflexivity).
  assert (Forall2 (λ private_key address,
                     Accounts.private_key_to_address zero_digest same_key private_key
                     = Ok address) [[x01]] addresses) as Hall
    by (repeat constructor).
  exact (conj Hlen (conj Hall
           (derived_addresses_are_canonical zero_digest same_key Hlen
              [[x01]] addresses Hall))).
Defined.

Lemma pre_fork_block_passes_witness :
  let b := Sample.london_fields (VList [Sample.legacy_tx]) in
  @is_london_block no_fork (VDict b) = false
  ∧ @is_shanghai_block no_fork (VDict (set_null LONDON_FIELDS b)) = false
  ∧ @is_cancun_block no_fork
      (VDict (set_null (LONDON_FIELDS ++ SHANGHAI_FIELDS) b)) = false
  ∧ @is_prague_block no_fork
      (VDict (set_null (LONDON_FIELDS ++ SHANGHAI_FIELDS ++ CANCUN_FIELDS) b)) = false
  ∧ dom b ⊆ key_set BLOCK_VALIDATORS
  ∧ Forall (λ kf : string * validator,
              kf.1 ∈ FORK_FIELDS
              ∨ ∃ x, b !! KStr kf.1 = Some x ∧ is_ok (kf.2 x) = true)
           BLOCK_VALIDATORS
  ∧ @validate_block no_fork (VDict b)
    = (Ok (Imm VNone), VDict (set_null FORK_FIELDS b))
  ∧ ∀ k, k ∈ FORK_FIELDS → set_null FORK_FIELDS b !! KStr k = Some VNone.
Proof.
  intros b.
  assert (dom b ⊆ key_set BLOCK_VALIDATORS) as Hsub by compute_done.
  assert (Forall (λ kf : string * validator,
                    kf.1 ∈ FORK_FIELDS
                    ∨ ∃ x, b !! KStr kf.1 = Some x ∧ is_ok (kf.2 x) = true)
                 BLOCK_VALIDATORS) as Hvalid
    by (apply other_fields_valid_spec; vm_compute; reflexivity).
  exact (conj eq_refl (conj eq_refl (conj eq_refl (conj eq_refl
           (conj Hsub (conj Hvalid
              (@pre_fork_block_passes no_fork b eq_refl eq_refl eq_refl eq_refl
                 Hsub Hvalid))))))).
Defined.

Lemma london_block_without_base_fee_witness :
  @is_london_block every_fork (VDict ∅) = true
  ∧ @validate_block every_fork (VDict ∅) = (Raise KeyError, VDict ∅).
Proof.
  exact (conj eq_refl (@london_block_without_base_fee every_fork ∅ eq_refl)).
Defined.

Lemma resolver_failure_writes_nothing_witness :
  let s := VDict negative_fee_fields in
  let run := _validate_fork_specific_fields s in
  (is_london_block s = false → is_shanghai_block (after_london s) = false)
  ∧ (is_shanghai_block (after_london s) = false →
     is_cancun_block (after_shanghai s) = false)
  ∧ (is_cancun_block (after_shanghai s) = false →
     is_prague_block (after_cancun s) = false)
  ∧ run = (Raise (ValidationError "Value must be positive integers"), run.2)
  ∧ run.2 = s.
Proof.
  intros s run.
  assert (is_london_block s = false → is_shanghai_block (after_london s) = false)
    as H1 by (intros _; vm_compute; reflexivity).
  assert (is_shanghai_block (after_london s) = false →
          is_cancun_block (after_shanghai s) = false)
    as H2 by (intros _; vm_compute; reflexivity).
  assert (is_cancun_block (after_shanghai s) = false →
          is_prague_block (after_cancun s) = false)
    as H3 by (intros _; vm_compute; reflexivity).
  assert (run.1 = Raise (ValidationError "Value must be positive integers")) as Hres
    by (vm_compute; reflexivity).
  assert (run = (Raise (ValidationError "Value must be positive integers"), run.2))
    as Hrun by (rewrite <- Hres; apply surjective_pairing).
  exact (conj H1 (conj H2 (conj H3 (conj Hrun
           (resolver_failure_writes_nothing negative_fee_fields _ run.2
              H1 H2 H3 Hrun))))).
Defined.

Lemma validated_block_names_witness :
  let s := Sample.london_block (VList [Sample.legacy_tx]) in
  let run := validate_block s in
  run = (Ok (Imm VNone), run.2)
  ∧ ∃ d', run.2 = VDict d'
          ∧ dom d' = key_set BLOCK_VALIDATORS
          ∧ size d' = 27%nat
          ∧ ∀ k, k ∈ FORK_FIELDS → is_Some (d' !! KStr k).
Proof.
  intros s run.
  assert (run.1 = Ok (Imm VNone)) as Hres by (vm_compute; reflexivity).
  assert (run = (Ok (Imm VNone), run.2)) as Hrun
    by (rewrite <- Hres; apply surjective_pairing).
  exact (conj Hrun (validated_block_names s run.2 (Imm VNone) Hrun)).
Defined.

Lemma validate_block_not_a_dict_witness :
  is_dict (VList []) = false
  ∧ validate_block (VList []) = (Raise TypeError, VList []).
Proof.
  exact (conj eq_refl (validate_block_not_a_dict (VList []) eq_refl)).
Defined.
